(** * Cleaner: a shallow embedding of [Main.py]

    The tool walks a directory and rewrites every [.html], [.js] and [.css]
    file: it copies the file to a backup directory, strips comments and blank
    lines, optionally minifies, applies a format pass, prepends a watermark
    and writes the result back unless a dry run was asked for.

    The development follows the source top to bottom:
    - [Py]: the [str] methods the source calls, on code points;
    - [Re]: the five regular expressions of the source, each as a matcher
      run by one substitution scanner;
    - [Soup]: the document tree of the HTML library, as far as the source
      touches it; its parser and serializer are parameters;
    - the configuration, the watermark and the text transformations of
      the three cleaners;
    - the store (dictionary, files, directories, printed lines), the
      effects of the library calls on it, with their exceptions, and the
      cleaners and the directory walk over it;
    - [main] (lines 187-232), which reads the answers of the prompts into
      the dictionary and calls [setup_backup_directory] and
      [clean_directory], over the answers still to come;
    - the properties: those of the cleaners first, which hold for every
      dictionary, then those of one file, of the walk, of the prompts and
      of the cleaned text. *)

From Stdlib Require Import NArith List Ascii String Bool Lia.
From stdpp Require Import gmap.

Set Warnings "-register-all".

(** A Python [str] is a sequence of code points. *)
Abbreviation str := (list N).

(** * Python string primitives *)
Module Py.

(** A literal of the source, written in ASCII. *)
Definition py (s : string) : str := map N_of_ascii (list_ascii_of_string s).
Arguments py s%_string : simpl never.

Definition TAB : N := 9.
Definition LF : N := 10.
Definition CR : N := 13.
Definition SPACE : N := 32.
Definition SLASH : N := 47.
Definition BRACE : N := 125.

(** [str.isspace] on one code point: the characters that [str.strip],
    and [\s] in a [str] pattern, treat as whitespace. *)
Definition whitespace_table : list N :=
  [9; 10; 11; 12; 13; 28; 29; 30; 31; 32; 133; 160; 5760;
   8232; 8233; 8239; 8287; 12288]%N.

Definition is_space (c : N) : bool :=
  existsb (N.eqb c) whitespace_table || ((8192 <=? c)%N && (c <=? 8202)%N).

(** The line boundaries of [str.splitlines]. *)
Definition linebreak_table : list N :=
  [10; 11; 12; 13; 28; 29; 30; 133; 8232; 8233]%N.

Definition is_linebreak (c : N) : bool := existsb (N.eqb c) linebreak_table.

(** [s.startswith(prefix)] *)
Fixpoint startswith (s prefix : str) {struct prefix} : bool :=
  match prefix, s with
  | [], _ => true
  | p :: ps, c :: cs => (c =? p)%N && startswith cs ps
  | _ :: _, [] => false
  end.

(** [s.endswith(suffix)] *)
Definition endswith (s suffix : str) : bool := startswith (rev s) (rev suffix).

(** [s.lstrip()], [s.rstrip()], [s.strip()] *)
Fixpoint lstrip (s : str) : str :=
  match s with
  | [] => []
  | c :: rest => if is_space c then lstrip rest else s
  end.

Definition rstrip (s : str) : str := rev (lstrip (rev s)).

Definition strip (s : str) : str := rstrip (lstrip s).

(** [s.splitlines()]: the lines without their boundaries; a carriage
    return followed by a line feed is one boundary, and a final boundary
    opens no empty last line. *)
Fixpoint splitlines (s : str) : list str :=
  match s with
  | [] => []
  | c :: rest =>
      if is_linebreak c then
        [] :: match rest with
              | c' :: rest' =>
                  if (c =? CR)%N && (c' =? LF)%N then splitlines rest'
                  else splitlines rest
              | [] => []
              end
      else
        match splitlines rest with
        | [] => [[c]]
        | l :: ls => (c :: l) :: ls
        end
  end.

(** [sep.join(parts)] *)
Fixpoint join (sep : str) (parts : list str) : str :=
  match parts with
  | [] => []
  | p :: ps =>
      match ps with
      | [] => p
      | _ :: _ => p ++ sep ++ join sep ps
      end
  end.

(** [s.find(needle)]: the index of the first occurrence. *)
Fixpoint find (needle s : str) : option nat :=
  match s with
  | [] => if startswith [] needle then Some 0 else None
  | _ :: rest =>
      if startswith s needle then Some 0 else option_map S (find needle rest)
  end.

(** The length of the longest prefix of [s] whose characters satisfy [p]. *)
Fixpoint span (p : N -> bool) (s : str) : nat :=
  match s with
  | c :: rest => if p c then S (span p rest) else 0
  | [] => 0
  end.

(** The scanner behind [str.replace] and [re.sub]: left to right, at each
    position the matcher [m] looks at the text from there on and answers
    the length of the match that starts there, if one does; the match is
    replaced by [repl] of the matched text and scanning resumes behind it.
    [skip] counts the characters of the current match still to pass over.
    No pattern of the source matches the empty string, so an answer of
    length zero is read as no match. *)
Fixpoint scan_sub (m : str -> option nat) (repl : str -> str)
    (skip : nat) (s : str) : str :=
  match s with
  | [] => []
  | c :: rest =>
      match skip with
      | S k => scan_sub m repl k rest
      | O =>
          match m s with
          | Some (S k) => repl (firstn (S k) s) ++ scan_sub m repl k rest
          | _ => c :: scan_sub m repl 0 rest
          end
      end
  end.

(** [s.replace(old, new)]; with an empty [old], Python puts [new] before
    every character and at the end. *)
Definition replace (old new s : str) : str :=
  match old with
  | [] => new ++ flat_map (fun c => c :: new) s
  | _ :: _ =>
      scan_sub (fun t => if startswith t old then Some (length old) else None)
               (fun _ => new) 0 s
  end.

(** [needle in s] *)
Definition contains (s needle : str) : bool :=
  match find needle s with Some _ => true | None => false end.

End Py.
Export Py.

(** * The regular expressions of the source *)
Module Re.

(** [//.*?$] under [re.MULTILINE]: from the two slashes, lazily, up to
    the first place where [$] holds, which is before a line feed or at the
    end of the text; [.] does not match a line feed. *)
Definition line_comment (s : str) : option nat :=
  if startswith s (py "//")
  then Some (2 + span (fun c => negb (c =? LF)%N) (skipn 2 s))
  else None.

(** [/\*.*?\*/] under [re.DOTALL]: from the opener to the nearest closer
    behind it; no closer, no match. *)
Definition block_comment (s : str) : option nat :=
  if startswith s (py "/*")
  then option_map (fun k => 2 + k + 2) (find (py "*/") (skipn 2 s))
  else None.

(** [\s+]: a maximal run of whitespace. *)
Definition whitespace_run (s : str) : option nat :=
  match span is_space s with
  | O => None
  | n => Some n
  end.

(** The index of the last occurrence of [c] in [s]. *)
Fixpoint rindex (c : N) (s : str) : option nat :=
  match s with
  | [] => None
  | d :: rest =>
      match rindex c rest with
      | Some k => Some (S k)
      | None => if (d =? c)%N then Some 0 else None
      end
  end.

(** [\n\s*\n]: a line feed, then the whitespace behind it as far as its
    last line feed (the greedy star gives back what follows that one). *)
Definition blank_gap (s : str) : option nat :=
  match s with
  | c :: rest =>
      if (c =? LF)%N
      then option_map (fun k => 1 + k + 1)
                      (rindex LF (firstn (span is_space rest) rest))
      else None
  | [] => None
  end.

(** [(\})]: one closing brace, kept as group 1. *)
Definition close_brace (s : str) : option nat :=
  match s with
  | c :: _ => if (c =? BRACE)%N then Some 1 else None
  | [] => None
  end.

(** [re.sub(pattern, repl, s)] for a pattern given by its matcher. *)
Definition sub (pattern : str -> option nat) (repl : str -> str) (s : str) : str :=
  scan_sub pattern repl 0 s.

(** The replacement templates of the source: the empty string, one
    space, one line feed, and [\1\n] (group 1 is the whole match). *)
Definition to_empty (_ : str) : str := [].
Definition to_space (_ : str) : str := [SPACE].
Definition to_newline (_ : str) : str := [LF].
Definition group1_newline (g : str) : str := g ++ [LF].

End Re.


(** * The document tree of the HTML parser

    [BeautifulSoup(f, "html.parser")] builds a tree of tags and strings.
    A string node is a [NavigableString] or one of its subclasses; the
    node's value as a [str] is its text WITHOUT the delimiters of the
    markup, which the serializer puts back: the comment
    [<!-- note -->] is the node [Comment " note "]. *)
Module Soup.

Inductive string_class :=
  | NavigableString | Comment | CData | ProcessingInstruction
  | Declaration | Doctype.

Inductive node :=
  | Tag (name : str) (attrs : list (str * str)) (contents : list node)
  | Text (cls : string_class) (value : str).

Abbreviation soup := (list node).

(** [soup.find_all(string=f)] visits every string node below the root
    and keeps those whose value [f] accepts; the source then calls
    [extract()] on each, which takes the node out of the tree. The two
    together leave the tree without the accepted string nodes. *)
Fixpoint extract_strings (f : str -> bool) (n : node) : list node :=
  match n with
  | Tag name attrs contents =>
      [Tag name attrs (flat_map (extract_strings f) contents)]
  | Text cls value => if f value then [] else [n]
  end.

Definition extract_all (f : str -> bool) (tree : soup) : soup :=
  flat_map (extract_strings f) tree.

(** The comment nodes of a tree, in document order. *)
Fixpoint comments_of (n : node) : list str :=
  match n with
  | Tag _ _ contents => flat_map comments_of contents
  | Text Comment value => [value]
  | Text _ _ => []
  end.

Definition comments (tree : soup) : list str := flat_map comments_of tree.

End Soup.

(** * Configuration (lines 8-21) *)

Record config := {
  backup_directory : str;
  clean_format : str;
  remove_comments : bool;
  remove_empty_lines : bool;
  normalize_indentation : bool;
  js_minify : bool;
  optimize_css : bool;
  dry_run : bool
}.

(** The dictionary as the module defines it. *)
Definition initial_config : config := {|
  backup_directory := py "backup";
  clean_format := py "compact";
  remove_comments := true;
  remove_empty_lines := true;
  normalize_indentation := true;
  js_minify := false;
  optimize_css := false;
  dry_run := false
|}.

Definition LOG_FILE_PATH : str := py "cleanup_log.txt".

(** The watermark literal (lines 24-31), line by line; three of its
    lines end in a space. *)
Definition WATERMARK : str :=
  [LF]
  ++ py "/* " ++ [LF]
  ++ py "    Cleaned by TheZ Cleaning Tool " ++ [LF]
  ++ py "    Watermark: 'This file was processed by TheZ's Cleaning Tool'" ++ [LF]
  ++ py "    For support and feedback, visit: https://discord.gg/zsGTqgnsmK " ++ [LF]
  ++ py "    Version: 1.1" ++ [LF]
  ++ py "*/" ++ [LF].

Definition add_watermark (content : str) : str := WATERMARK ++ content.

(** * The text transformations of the three cleaners *)

(** [[line.strip() for line in lines if line.strip()]] *)
Definition nonblank_stripped (lines : list str) : list str :=
  map strip (List.filter (fun line => match strip line with [] => false | _ => true end) lines).

(** [ "\n".join([line.strip() for line in text.splitlines() if line.strip()]) ],
    lines 67, 104 and 146. *)
Definition strip_lines (text : str) : str :=
  join [LF] (nonblank_stripped (splitlines text)).

Definition is_compact (cfg : config) : bool :=
  bool_decide (clean_format cfg = py "compact").

Definition is_readable (cfg : config) : bool :=
  bool_decide (clean_format cfg = py "readable").

(** [re.sub(r"(\})", r"\1\n", text)], the readable format of all three. *)
Definition brace_newline (text : str) : str :=
  Re.sub Re.close_brace Re.group1_newline text.

(** ** Markup (lines 57-80); the tree comes from the parser. *)

(** The [string=] filter of line 59. Every string node is a [str]. *)
Definition looks_like_comment (text : str) : bool :=
  true && startswith text (py "<!--").

Definition html_remove_comments (cfg : config) (tree : Soup.soup) : Soup.soup :=
  if remove_comments cfg then Soup.extract_all looks_like_comment tree else tree.

Definition html_empty_lines (cfg : config) (cleaned_html : str) : str :=
  if remove_empty_lines cfg then strip_lines cleaned_html else cleaned_html.

Definition html_indentation (cfg : config) (cleaned_html : str) : str :=
  if normalize_indentation cfg then replace [TAB] (py "    ") cleaned_html
  else cleaned_html.

Definition html_format (cfg : config) (cleaned_html : str) : str :=
  if is_compact cfg then replace [LF; LF] [] cleaned_html
  else if is_readable cfg then brace_newline cleaned_html
  else cleaned_html.

(** ** Script (lines 98-119) *)

Definition js_remove_comments (cfg : config) (js_code : str) : str :=
  if remove_comments cfg then
    let js_code := Re.sub Re.line_comment Re.to_empty js_code in
    Re.sub Re.block_comment Re.to_empty js_code
  else js_code.

Definition js_minified (cfg : config) (js_code : str) : str :=
  if js_minify cfg then
    let js_code := Re.sub Re.whitespace_run Re.to_space js_code in
    replace [LF] [] js_code
  else js_code.

Definition js_format (cfg : config) (js_code : str) : str :=
  if is_compact cfg then Re.sub Re.blank_gap Re.to_newline js_code
  else if is_readable cfg then brace_newline js_code
  else js_code.

(** The content of [js_code] when line 119 is reached, and after it. *)
Definition js_body (cfg : config) (js_code : str) : str :=
  js_format cfg (js_minified cfg (strip_lines (js_remove_comments cfg js_code))).

Definition clean_js_text (cfg : config) (js_code : str) : str :=
  add_watermark (js_body cfg js_code).

(** ** Stylesheet (lines 136-154) *)

Definition css_remove_comments (cfg : config) (css_code : str) : str :=
  if remove_comments cfg then Re.sub Re.block_comment Re.to_empty css_code
  else css_code.

(** Lines 141-143: the branch holds [pass]. *)
Definition css_optimize (cfg : config) (css_code : str) : str :=
  if optimize_css cfg then css_code else css_code.

Definition css_format (cfg : config) (css_code : str) : str :=
  if is_compact cfg then replace [LF; LF] [] css_code
  else if is_readable cfg then brace_newline css_code
  else css_code.

Definition css_body (cfg : config) (css_code : str) : str :=
  css_format cfg (strip_lines (css_optimize cfg (css_remove_comments cfg css_code))).

Definition clean_css_text (cfg : config) (css_code : str) : str :=
  add_watermark (css_body cfg css_code).

(** * The store and the effects

    The store holds the global dictionary, the regular files by path (a
    file's content is its decoded text), the directories and what was
    printed. Two paths name the same file when they are the same string.
    An exception ends the run and leaves the store as it was when raised.

    The calls below are modelled where the file system is this simple:
    every file and directory is held under one spelling of its path and
    there are no links, every content is text, and a path that is opened
    for writing or copied to is not a directory. The properties of runs
    that depend on it say so in their hypotheses ([normal_path],
    [may_alias] and the directories of the store). *)

Inductive exn :=
  | FileNotFoundError (path : str)
  | FileExistsError (path : str)
  | SameFileError (src dst : str).

Record world := {
  DEFAULT_CONFIG : config;
  files : gmap (list N) (list N);
  dirs : gset (list N);
  stdout : list (list N)
}.

Inductive outcome (A : Type) :=
  | Returned (a : A) (w : world)
  | Raised (e : exn) (w : world).
Arguments Returned {A} a w.
Arguments Raised {A} e w.

Definition M (A : Type) : Type := world -> outcome A.

Definition ret {A} (a : A) : M A := fun w => Returned a w.

Definition bind {A B} (m : M A) (k : A -> M B) : M B :=
  fun w =>
    match m w with
    | Returned a w' => k a w'
    | Raised e w' => Raised e w'
    end.

Notation "'let*' x ':=' m 'in' k" := (bind m (fun x => k))
  (at level 10, x name, m at level 100, k at level 200).
Notation "m ';;' k" := (bind m (fun _ => k))
  (at level 100, k at level 200, right associativity).

Definition with_config (cfg : config) (w : world) : world :=
  {| DEFAULT_CONFIG := cfg; files := files w; dirs := dirs w; stdout := stdout w |}.

Definition with_files (fs : gmap (list N) (list N)) (w : world) : world :=
  {| DEFAULT_CONFIG := DEFAULT_CONFIG w; files := fs; dirs := dirs w; stdout := stdout w |}.

Definition with_dirs (ds : gset (list N)) (w : world) : world :=
  {| DEFAULT_CONFIG := DEFAULT_CONFIG w; files := files w; dirs := ds; stdout := stdout w |}.

Definition with_stdout (out : list (list N)) (w : world) : world :=
  {| DEFAULT_CONFIG := DEFAULT_CONFIG w; files := files w; dirs := dirs w; stdout := out |}.

Definition set_clean_format (fmt : str) (cfg : config) : config :=
  {| backup_directory := backup_directory cfg;
     clean_format := fmt;
     remove_comments := remove_comments cfg;
     remove_empty_lines := remove_empty_lines cfg;
     normalize_indentation := normalize_indentation cfg;
     js_minify := js_minify cfg;
     optimize_css := optimize_css cfg;
     dry_run := dry_run cfg |}.

(** Reading the dictionary, and [DEFAULT_CONFIG[key] = value]. *)
Definition get_config : M config := fun w => Returned (DEFAULT_CONFIG w) w.

Definition update_config (f : config -> config) : M unit :=
  fun w => Returned tt (with_config (f (DEFAULT_CONFIG w)) w).

(** [print(line)] *)
Definition print (line : str) : M unit :=
  fun w => Returned tt (with_stdout (stdout w ++ [line]) w).

(** [open(path, "a").write(text)]: the file is created when absent. The
    path is not a directory. *)
Definition append_text (path text : str) : M unit :=
  fun w =>
    Returned tt (with_files (<[path := default [] (files w !! path) ++ text]> (files w)) w).

(** Reading in text mode turns each carriage return, with the line feed
    behind it if there is one, into one line feed. *)
Fixpoint universal_newlines (s : str) : str :=
  match s with
  | [] => []
  | c :: rest =>
      if (c =? CR)%N then
        LF :: match rest with
              | c' :: rest' =>
                  if (c' =? LF)%N then universal_newlines rest'
                  else universal_newlines rest
              | [] => []
              end
      else c :: universal_newlines rest
  end.

(** [open(path, "r").read()], of a file that holds text. *)
Definition read_text (path : str) : M str :=
  fun w =>
    match files w !! path with
    | Some content => Returned (universal_newlines content) w
    | None => Raised (FileNotFoundError path) w
    end.

(** [open(path, "w").write(text)]. The path is not a directory. *)
Definition write_text (path text : str) : M unit :=
  fun w => Returned tt (with_files (<[path := text]> (files w)) w).

(** [os.makedirs(path, exist_ok=True)]: refused when [path] is a regular
    file. The directory is made under the spelling given, which has one
    component in the source ([backup]). *)
Definition os_makedirs (path : str) : M unit :=
  fun w =>
    match files w !! path with
    | Some _ => Raised (FileExistsError path) w
    | None => Returned tt (with_dirs ({[path]} ∪ dirs w) w)
    end.

(** [os.path.exists(path)], for a path in the spelling of the store. *)
Definition os_path_exists (path : str) : M bool :=
  fun w =>
    Returned (bool_decide (path ∈ dirs w) || bool_decide (is_Some (files w !! path))) w.

(** [os.path.basename(path)]: what follows the last slash, that is the
    longest suffix without one. *)
Definition os_path_basename (path : str) : str :=
  let reversed := rev path in
  rev (firstn (span (fun c => negb (c =? SLASH)%N) reversed) reversed).

(** [os.path.join(a, b)] *)
Definition os_path_join (a b : str) : str :=
  if startswith b (py "/") then b
  else if match a with [] => true | _ => endswith a (py "/") end then a ++ b
  else a ++ py "/" ++ b.

(** [shutil.copy2(src, dst)]: the content goes to [dst]; a missing source
    and a copy onto itself are refused. The two are one file when they are
    one text, as the store has it, and [dst] is not a directory. *)
Definition shutil_copy2 (src dst : str) : M unit :=
  fun w =>
    match files w !! src with
    | None => Raised (FileNotFoundError src) w
    | Some content =>
        if bool_decide (src = dst) then Raised (SameFileError src dst) w
        else Returned tt (with_files (<[dst := content]> (files w)) w)
    end.

(** * The cleaner (lines 33-185) *)

Definition log_message (message : str) : M unit :=
  print (py "[" ++ message ++ py "]") ;;
  append_text LOG_FILE_PATH (py "[" ++ message ++ py "]" ++ [LF]).

Definition backup_path_of (cfg : config) (file_path : str) : str :=
  os_path_join (backup_directory cfg) (os_path_basename file_path).

Definition create_backup (file_path : str) : M unit :=
  let* cfg := get_config in
  let backup_dir := backup_directory cfg in
  os_makedirs backup_dir ;;
  let backup_path := os_path_join backup_dir (os_path_basename file_path) in
  shutil_copy2 file_path backup_path ;;
  log_message (py "Backup created for " ++ file_path ++ py " at " ++ backup_path).

Definition clean_js (file_path : str) : M unit :=
  create_backup file_path ;;
  let* js_code := read_text file_path in
  let* cfg := get_config in
  let js_code := clean_js_text cfg js_code in
  if dry_run cfg then
    log_message (py "Dry run: JS changes for " ++ file_path)
  else
    write_text file_path js_code ;;
    log_message (py "JavaScript cleaned: " ++ file_path).

Definition clean_css (file_path : str) : M unit :=
  create_backup file_path ;;
  let* css_code := read_text file_path in
  let* cfg := get_config in
  let css_code := clean_css_text cfg css_code in
  if dry_run cfg then
    log_message (py "Dry run: CSS changes for " ++ file_path)
  else
    write_text file_path css_code ;;
    log_message (py "CSS cleaned: " ++ file_path).

(** [for x in xs: body(x)] *)
Fixpoint for_each {A} (body : A -> M unit) (xs : list A) : M unit :=
  match xs with
  | [] => ret tt
  | x :: rest => body x ;; for_each body rest
  end.

Section Cleaner.

(** The parser and the serializer of the HTML library:
    [BeautifulSoup(text, "html.parser")] and [soup.prettify(formatter="html")]. *)
Variable html_parser : str -> Soup.soup.
Variable prettify : Soup.soup -> str.

Definition html_body (cfg : config) (text : str) : str :=
  let soup := html_parser text in
  let soup := html_remove_comments cfg soup in
  let cleaned_html := prettify soup in
  html_format cfg (html_indentation cfg (html_empty_lines cfg cleaned_html)).

Definition clean_html_text (cfg : config) (text : str) : str :=
  add_watermark (html_body cfg text).

Definition clean_html (file_path : str) : M unit :=
  create_backup file_path ;;
  let* text := read_text file_path in
  let* cfg := get_config in
  let cleaned_html := clean_html_text cfg text in
  if dry_run cfg then
    log_message (py "Dry run: HTML changes for " ++ file_path)
  else
    write_text file_path cleaned_html ;;
    log_message (py "HTML cleaned: " ++ file_path).

(** The body of the loop of [clean_directory] (lines 174-180). *)
Definition clean_file (root file : str) : M unit :=
  let file_path := os_path_join root file in
  if endswith file (py ".html") then clean_html file_path
  else if endswith file (py ".js") then clean_js file_path
  else if endswith file (py ".css") then clean_css file_path
  else ret tt.

(** [walk] is what [os.walk(directory)] yields during the run: for each
    directory it reaches, its path, its subdirectories and its files. *)
Definition clean_directory (directory clean_format : str)
    (walk : list (str * list str * list str)) : M unit :=
  update_config (set_clean_format clean_format) ;;
  let* found := os_path_exists directory in
  if negb found then
    log_message (py "Directory " ++ directory ++ py " does not exist!")
  else
    for_each (fun entry => for_each (clean_file (fst (fst entry))) (snd entry)) walk.

Definition setup_backup_directory : M unit :=
  let* cfg := get_config in
  os_makedirs (backup_directory cfg).

End Cleaner.

(** * Vocabulary of the properties *)

(** The file names the loop of [clean_directory] dispatches on. *)
Definition recognised (file : str) : bool :=
  endswith file (py ".html") || endswith file (py ".js") || endswith file (py ".css").

Definition line_count (text : str) : nat := length (splitlines text).

(** The content of the log file, empty while the file is absent. *)
Definition log_of (w : world) : str := default [] (files w !! LOG_FILE_PATH).

(** The store after [log_message message]. *)
Definition logged (message : str) (w : world) : world :=
  with_files
    (<[LOG_FILE_PATH := log_of w ++ py "[" ++ message ++ py "]" ++ [LF]]> (files w))
    (with_stdout (stdout w ++ [py "[" ++ message ++ py "]"]) w).

(** The store after [create_backup file_path] of a file holding [content]. *)
Definition backed_up (file_path content : str) (w : world) : world :=
  let cfg := DEFAULT_CONFIG w in
  let backup_path := backup_path_of cfg file_path in
  logged (py "Backup created for " ++ file_path ++ py " at " ++ backup_path)
    (with_files (<[backup_path := content]> (files w))
       (with_dirs ({[backup_directory cfg]} ∪ dirs w) w)).

(** [DEFAULT_CONFIG[key] = b], for the keys the properties vary. *)
Definition set_remove_empty_lines (b : bool) (cfg : config) : config :=
  {| backup_directory := backup_directory cfg;
     clean_format := clean_format cfg;
     remove_comments := remove_comments cfg;
     remove_empty_lines := b;
     normalize_indentation := normalize_indentation cfg;
     js_minify := js_minify cfg;
     optimize_css := optimize_css cfg;
     dry_run := dry_run cfg |}.

Definition set_normalize_indentation (b : bool) (cfg : config) : config :=
  {| backup_directory := backup_directory cfg;
     clean_format := clean_format cfg;
     remove_comments := remove_comments cfg;
     remove_empty_lines := remove_empty_lines cfg;
     normalize_indentation := b;
     js_minify := js_minify cfg;
     optimize_css := optimize_css cfg;
     dry_run := dry_run cfg |}.

Definition set_optimize_css (b : bool) (cfg : config) : config :=
  {| backup_directory := backup_directory cfg;
     clean_format := clean_format cfg;
     remove_comments := remove_comments cfg;
     remove_empty_lines := remove_empty_lines cfg;
     normalize_indentation := normalize_indentation cfg;
     js_minify := js_minify cfg;
     optimize_css := b;
     dry_run := dry_run cfg |}.

Definition set_dry_run (b : bool) (cfg : config) : config :=
  {| backup_directory := backup_directory cfg;
     clean_format := clean_format cfg;
     remove_comments := remove_comments cfg;
     remove_empty_lines := remove_empty_lines cfg;
     normalize_indentation := normalize_indentation cfg;
     js_minify := js_minify cfg;
     optimize_css := optimize_css cfg;
     dry_run := b |}.

Definition set_js_minify (b : bool) (cfg : config) : config :=
  {| backup_directory := backup_directory cfg;
     clean_format := clean_format cfg;
     remove_comments := remove_comments cfg;
     remove_empty_lines := remove_empty_lines cfg;
     normalize_indentation := normalize_indentation cfg;
     js_minify := b;
     optimize_css := optimize_css cfg;
     dry_run := dry_run cfg |}.

Definition set_remove_comments (b : bool) (cfg : config) : config :=
  {| backup_directory := backup_directory cfg;
     clean_format := clean_format cfg;
     remove_comments := b;
     remove_empty_lines := remove_empty_lines cfg;
     normalize_indentation := normalize_indentation cfg;
     js_minify := js_minify cfg;
     optimize_css := optimize_css cfg;
     dry_run := dry_run cfg |}.

(** The store after one of the three cleaners ran on a file holding
    [content], [transform] being its text transformation. *)
Definition after_clean (transform : config -> str -> str) (dry_message done_message : str)
    (file_path content : str) (w : world) : world :=
  let cfg := DEFAULT_CONFIG w in
  let w1 := backed_up file_path content w in
  if dry_run cfg then logged (dry_message ++ file_path) w1
  else
    logged (done_message ++ file_path)
      (with_files (<[file_path := transform cfg (universal_newlines content)]> (files w1)) w1).

(** What a run leaves behind, the dictionary apart: the exception if one
    was raised, the files, the directories and the printed lines. *)
Definition observable {A} (o : outcome A) : option exn * gmap (list N) (list N) * gset (list N) * list (list N) :=
  match o with
  | Returned _ w => (None, files w, dirs w, stdout w)
  | Raised e w => (Some e, files w, dirs w, stdout w)
  end.

(** A stand-in for the HTML library where a property needs a concrete
    one: the text as one string node, and the strings of a tree in order. *)
Definition one_string_parser (text : str) : Soup.soup := [Soup.Text Soup.NavigableString text].

Fixpoint node_text (n : Soup.node) : str :=
  match n with
  | Soup.Tag _ _ contents => flat_map node_text contents
  | Soup.Text _ value => value
  end.

Definition strings_of (tree : Soup.soup) : str := flat_map node_text tree.

(** A store with one script in it. *)
Definition one_script_world (cfg : config) : world :=
  {| DEFAULT_CONFIG := cfg;
     files := {[ py "site/app.js" := py "var a = 1; // one" ]};
     dirs := {[ py "site" ]};
     stdout := [] |}.

(** The shape the three cleaners share: [clean_js], [clean_css] and
    [clean_html] are this with their text transformation and messages. *)
Definition cleaner (transform : config -> str -> str) (dry_message done_message : str)
    (file_path : str) : M unit :=
  create_backup file_path ;;
  let* text := read_text file_path in
  let* cfg := get_config in
  let text := transform cfg text in
  if dry_run cfg then log_message (dry_message ++ file_path)
  else write_text file_path text ;; log_message (done_message ++ file_path).

(** The tree of [<p>x</p><!-- note -->]: a paragraph and a comment. *)
Definition noted_page : Soup.soup :=
  [Soup.Tag (py "p") [] [Soup.Text Soup.NavigableString (py "x")];
   Soup.Text Soup.Comment (py " note ")].

(** The stylesheet and the script of the spec's examples. *)
Definition commented_css : str :=
  py "a{color:red;} /* comment " ++ [LF] ++ py " spanning */ b{}".

Definition three_line_js : str :=
  py "function f() {" ++ [LF] ++ py "  return 1;" ++ [LF] ++ py "}".

(** Every whitespace character of [s] is a space, and none is followed
    by another whitespace character. *)
Fixpoint single_spaced (s : str) : bool :=
  match s with
  | [] => true
  | c :: rest =>
      (if is_space c
       then (c =? SPACE)%N && match rest with d :: _ => negb (is_space d) | [] => true end
       else true)
      && single_spaced rest
  end.

(** [s.split()]: the maximal runs of characters that are not whitespace,
    the tokens of the text. *)
Fixpoint words (s : str) : list str :=
  match s with
  | [] => []
  | c :: rest =>
      if is_space c then words rest
      else
        match rest with
        | [] => [[c]]
        | d :: _ =>
            if is_space d then [c] :: words rest
            else
              match words rest with
              | [] => [[c]]
              | w :: ws => (c :: w) :: ws
              end
        end
  end.

(** The characters of [s] that are not whitespace, in order. *)
Definition ink (s : str) : str := List.filter (fun c => negb (is_space c)) s.

(** A text without line boundaries, as every line of [splitlines] is. *)
Definition no_break (l : str) : bool := forallb (fun c => negb (is_linebreak c)) l.

(** A line as [strip_lines] leaves it: not empty, without a line
    boundary, and with nothing for [strip] to take off. *)
Definition trimmed_line (l : str) : Prop :=
  l <> [] /\ no_break l = true /\ strip l = l.

(** [c] and the head of [rest] are a carriage return and its line feed. *)
Definition crlf (c : N) (rest : str) : bool :=
  (c =? CR)%N && match rest with c' :: _ => (c' =? LF)%N | [] => false end.

(** The lines of the watermark, and those that survive [strip_lines]. *)
Definition watermark_lines : list str := splitlines WATERMARK.

Definition watermark_stripped : list str := nonblank_stripped watermark_lines.

(** [s.count(c)] for one character. *)
Definition count_char (c : N) (s : str) : nat :=
  length (List.filter (fun d => (d =? c)%N) s).

(** Every line boundary of the text is a line feed. *)
Definition lf_only (v : str) : bool :=
  forallb (fun c => negb (is_linebreak c) || (c =? LF)%N) v.

(** The text is not empty and does not end in a line feed. *)
Fixpoint open_end (v : str) : bool :=
  match v with
  | [] => false
  | c :: rest =>
      match rest with
      | [] => negb (c =? LF)%N
      | _ :: _ => open_end rest
      end
  end.

(** The number of lines of a text that are not blank. *)
Definition nonblank_count (text : str) : nat :=
  length (nonblank_stripped (splitlines text)).

(** Eight rules on eight lines. *)
Definition eight_rules : str :=
  join [LF] (repeat (py "a{}") 8).

Definition readable_config : config := set_clean_format (py "readable") initial_config.

Definition compact_rerun_config : config := set_remove_comments false initial_config.

(** The store a run ends in, returned or raised. *)
Definition world_of {A} (o : outcome A) : world :=
  match o with
  | Returned _ w => w
  | Raised _ w => w
  end.

(** ** Paths and the files they name

    The store holds every file under one spelling of its path and has no
    links. A property of a run that returns asks that the paths the run is
    given be spelled in the normal way, and that they cannot name the
    file or directory at another path the run computes. *)





(** ** Lines and their trimming, in the words of the claims *)






(** * The prompts (lines 187-232)

    [input(prompt)] writes the prompt and reads one line of standard
    input, given here as the list of the lines still to come; with none
    left it raises [EOFError], which no call of the cleaner raises. The
    source is one function; it is cut here where its two early returns
    are and where the prompts end: [main] up to the action, [main_format]
    from line 201, [main_options] from line 210 and [main_run] from line
    218. *)

Inductive ended :=
  | Ended (o : outcome unit)
  | EOFError (w : world).

Definition input (prompt : str) (answers : list str)
    (k : str -> list str -> world -> ended) (w : world) : ended :=
  let w := with_stdout (stdout w ++ [prompt]) w in
  match answers with
  | [] => EOFError w
  | answer :: rest => k answer rest w
  end.

Section Main.

Variable html_parser : str -> Soup.soup.
Variable prettify : Soup.soup -> str.

(** [str.lower], [os.getcwd()] and what [os.walk] yields for a directory. *)
Variable lower : str -> str.
Variable getcwd : str.
Variable os_walk : str -> list (str * list str * list str).

(** [input(...).strip().lower() == "yes"] *)
Definition yes (answer : str) : bool :=
  bool_decide (lower (strip answer) = py "yes").

(** Lines 218-232, with the six answers read. *)
Definition main_run (directory clean_format : str)
    (remove_comments remove_empty_lines normalize_indentation js_minify optimize_css
       dry_run : bool) : M unit :=
  update_config (set_remove_comments remove_comments) ;;
  update_config (set_remove_empty_lines remove_empty_lines) ;;
  update_config (set_normalize_indentation normalize_indentation) ;;
  update_config (set_js_minify js_minify) ;;
  update_config (set_optimize_css optimize_css) ;;
  update_config (set_dry_run dry_run) ;;
  setup_backup_directory ;;
  clean_directory html_parser prettify directory clean_format (os_walk directory) ;;
  if dry_run then print (py "Dry run mode: No files were modified.")
  else print (py "Code cleanup complete.").

Definition main_options (directory clean_format : str) (answers : list str) : world -> ended :=
  input (py "Remove comments? (yes/no): ") answers (fun a1 answers =>
  input (py "Remove empty lines? (yes/no): ") answers (fun a2 answers =>
  input (py "Normalize indentation (convert tabs to spaces)? (yes/no): ") answers (fun a3 answers =>
  input (py "Minify JavaScript? (yes/no): ") answers (fun a4 answers =>
  input (py "Optimize CSS (remove unused selectors)? (yes/no): ") answers (fun a5 answers =>
  input (py "Dry run mode (no actual changes made)? (yes/no): ") answers (fun a6 answers =>
  fun w =>
    Ended (main_run directory clean_format
             (yes a1) (yes a2) (yes a3) (yes a4) (yes a5) (yes a6) w))))))).

Definition main_format (directory : str) (answers : list str) : world -> ended :=
  input (py "Choose cleaning format: 1) Compact (no empty lines) 2) Readable (with empty lines between functions): ")
    answers (fun format_option answers =>
  let format_option := strip format_option in
  if bool_decide (format_option = py "1") then main_options directory (py "compact") answers
  else if bool_decide (format_option = py "2") then main_options directory (py "readable") answers
  else fun w => Ended (print (py "Invalid format choice!") w)).

Definition main (answers : list str) : world -> ended :=
  fun w =>
    match print (py "Welcome to the Enhanced Code Cleaner Tool for HTML, JS, and CSS") w with
    | Raised e w => Ended (Raised e w)
    | Returned _ w =>
        input (py "Choose an action: 1) Clean files in current folder 2) Clean custom folder: ")
          answers (fun action answers =>
        let action := strip action in
        if bool_decide (action = py "1") then
          main_format (os_path_join getcwd (py "scripts")) answers
        else if bool_decide (action = py "2") then
          input (py "Enter the full path of the directory: ") answers (fun directory answers =>
          main_format (strip directory) answers)
        else fun w => Ended (print (py "Invalid action!") w)) w
    end.

End Main.

(** * Vocabulary of the further properties *)




(** A store whose only file lies in the backup directory, one where the
    backup path is taken by a regular file, and one with two scripts of
    the same name. *)
Definition backup_only_world : world :=
  {| DEFAULT_CONFIG := initial_config;
     files := {[ py "backup/app.js" := py "var a;" ]};
     dirs := {[ py "backup" ]};
     stdout := [] |}.

Definition backup_taken_world : world :=
  {| DEFAULT_CONFIG := initial_config;
     files := {[ py "backup" := py "not a directory" ]};
     dirs := ∅;
     stdout := [] |}.


(** The cleaner a file name is dispatched to (lines 175-180): its text
    transformation and its two messages. *)
Definition transformation_of (html_parser : str -> Soup.soup) (prettify : Soup.soup -> str)
    (file : str) : config -> str -> str :=
  if endswith file (py ".html") then clean_html_text html_parser prettify
  else if endswith file (py ".js") then clean_js_text
  else clean_css_text.

Definition dry_message_of (file : str) : str :=
  if endswith file (py ".html") then py "Dry run: HTML changes for "
  else if endswith file (py ".js") then py "Dry run: JS changes for "
  else py "Dry run: CSS changes for ".

Definition done_message_of (file : str) : str :=
  if endswith file (py ".html") then py "HTML cleaned: "
  else if endswith file (py ".js") then py "JavaScript cleaned: "
  else py "CSS cleaned: ".

(** What the walk does with one entry of [os.walk] (lines 173-180). *)
Definition visit (html_parser : str -> Soup.soup) (prettify : Soup.soup -> str)
    (entry : str * list str * list str) : M unit :=
  for_each (clean_file html_parser prettify (fst (fst entry))) (snd entry).

(** From [w] to [w'] the dictionary kept its dry-run flag and its backup
    directory, and the content at [q] stayed if the flag is set and the
    directory is [bd]. *)
Definition dry_keeps (q bd : str) (w w' : world) : Prop :=
  dry_run (DEFAULT_CONFIG w') = dry_run (DEFAULT_CONFIG w)
  /\ backup_directory (DEFAULT_CONFIG w') = backup_directory (DEFAULT_CONFIG w)
  /\ (dry_run (DEFAULT_CONFIG w) = true -> backup_directory (DEFAULT_CONFIG w) = bd ->
      files w' !! q = files w !! q).

(** The store a run of the prompts ends in. *)
Definition world_of_ended (r : ended) : world :=
  match r with
  | Ended o => world_of o
  | EOFError w => w
  end.

(** From [w] to [w'] lines were printed and nothing else happened. *)
Definition only_printed (w w' : world) : Prop :=
  files w' = files w /\ dirs w' = dirs w /\ DEFAULT_CONFIG w' = DEFAULT_CONFIG w
  /\ exists lines, stdout w' = stdout w ++ lines.

(** Where a run of the prompts stands when it is over: it ended early, on
    a missing answer or an invalid choice, having only printed; or all
    answers were read and lines 218-232 ran from a store that was only
    printed to. *)
Inductive reached (html_parser : str -> Soup.soup) (prettify : Soup.soup -> str)
    (os_walk : str -> list (str * list str * list str)) (w : world) (r : ended) : Prop :=
  | Early (w' : world) :
      r = EOFError w' \/ r = Ended (Returned tt w') -> only_printed w w' ->
      reached html_parser prettify os_walk w r
  | Late (directory fmt : str) (b1 b2 b3 b4 b5 b6 : bool) (w' : world) :
      only_printed w w' ->
      r = Ended (main_run html_parser prettify os_walk directory fmt b1 b2 b3 b4 b5 b6 w') ->
      reached html_parser prettify os_walk w r.

(** [str.lower] on ASCII text. *)
Definition ascii_lower (s : str) : str :=
  map (fun c => if ((65 <=? c) && (c <=? 90))%N then (c + 32)%N else c) s.

(** A walk that finds one directory with one script and one text file. *)
Definition one_script_walk (directory : str) : list (str * list str * list str) :=
  [(directory, [], [py "app.js"; py "notes.txt"])].

(** The answers of a run on [site]: compact, every option but the
    minifier and the optimizer, and the dry run as given. *)
Definition answers_for_site (dry_run : str) : list str :=
  [py "2"; py "site"; py " 1 "; py "yes"; py "yes"; py "yes"; py "no"; py "no"; dry_run].

(** The line [main] opens with and its first prompt. *)
Definition welcome : str :=
  py "Welcome to the Enhanced Code Cleaner Tool for HTML, JS, and CSS".

Definition action_prompt : str :=
  py "Choose an action: 1) Clean files in current folder 2) Clean custom folder: ".

(** From [w] to [w'] the content at [q] stayed. *)
Definition keeps_at (q : str) (w w' : world) : Prop := files w' !! q = files w !! q.


Definition format_prompt : str :=
  py "Choose cleaning format: 1) Compact (no empty lines) 2) Readable (with empty lines between functions): ".



(** The watermark between its first and its last line feed: one comment. *)
Definition watermark_comment : str := removelast (tl WATERMARK).

(** A text without tabs. *)
Definition no_tab (s : str) : bool := forallb (fun c => negb (c =? TAB)%N) s.

(** * The primitives on sample texts

    Each value below is what the Python call gives on the same text. *)

Example splitlines_sample :
  splitlines (py "ab" ++ [LF; LF] ++ py "cd" ++ [CR; LF]) = [py "ab"; []; py "cd"]
  /\ splitlines (py "a" ++ [CR] ++ py "b" ++ [11%N] ++ py "c" ++ [133%N] ++ py "d")
     = [py "a"; py "b"; py "c"; py "d"].
Proof. split; reflexivity. Qed.

Example strip_sample :
  strip ([SPACE; TAB; SPACE] ++ py "ab c" ++ [SPACE; 160%N]) = py "ab c".
Proof. reflexivity. Qed.

Example replace_sample :
  replace [LF; LF] [] (py "a" ++ [LF; LF; LF] ++ py "b") = py "a" ++ [LF] ++ py "b"
  /\ replace [TAB] (py "    ") (py "a" ++ [TAB] ++ py "b") = py "a    b".
Proof. split; reflexivity. Qed.

Example line_comment_sample :
  Re.sub Re.line_comment Re.to_empty (py "x = 1; // hi" ++ [LF] ++ py "y//z")
  = py "x = 1; " ++ [LF] ++ py "y".
Proof. reflexivity. Qed.

Example block_comment_sample :
  Re.sub Re.block_comment Re.to_empty (py "a /* b " ++ [LF] ++ py " c */ d /* e")
  = py "a  d /* e".
Proof. reflexivity. Qed.

Example whitespace_run_sample :
  Re.sub Re.whitespace_run Re.to_space (py "a " ++ [TAB; LF] ++ py " b" ++ [LF])
  = py "a b ".
Proof. reflexivity. Qed.

Example blank_gap_sample :
  Re.sub Re.blank_gap Re.to_newline (py "a" ++ [LF; SPACE; LF; LF; SPACE] ++ py "b")
  = py "a" ++ [LF; SPACE] ++ py "b".
Proof. reflexivity. Qed.

Example close_brace_sample :
  brace_newline (py "a{}b{}") = py "a{}" ++ [LF] ++ py "b{}" ++ [LF].
Proof. reflexivity. Qed.

Example path_sample :
  os_path_join (py "site") (py "app.js") = py "site/app.js"
  /\ os_path_join (py "site/") (py "app.js") = py "site/app.js"
  /\ os_path_basename (py "site/js/app.js") = py "app.js".
Proof. repeat split; reflexivity. Qed.

(** Two statements with three blank lines between them. *)
Example strip_lines_sample :
  strip_lines (py "a;" ++ [LF; LF; LF; LF] ++ py "  b;" ++ [LF]) = py "a;" ++ [LF] ++ py "b;".
Proof. reflexivity. Qed.

(** * Paths *)

Lemma startswith_app (s t p : str) :
  startswith s p = true -> startswith (s ++ t) p = true.
Proof.
  revert s. induction p as [|x p IH]; intros [|c s]; simpl; try easy.
  intros H. apply andb_true_iff in H as [-> H]. simpl. now apply IH.
Qed.

Lemma endswith_app (a b x : str) :
  endswith b x = true -> endswith (a ++ b) x = true.
Proof.
  unfold endswith. rewrite rev_app_distr. apply startswith_app.
Qed.

Lemma startswith_refl (s : str) : startswith s s = true.
Proof. induction s as [|c s IH]; simpl; [easy|]. now rewrite N.eqb_refl. Qed.

Lemma startswith_span (f : N -> bool) (s q : str) :
  startswith s q = true -> forallb f q = true ->
  startswith (firstn (span f s) s) q = true.
Proof.
  revert s. induction q as [|x q IH]; intros [|c s]; simpl; try easy.
  intros H Hq. apply andb_true_iff in H as [Hc H].
  apply andb_true_iff in Hq as [Hx Hq].
  apply N.eqb_eq in Hc. subst c. rewrite Hx. simpl.
  rewrite N.eqb_refl. simpl. now apply IH.
Qed.

Lemma endswith_basename (path ext : str) :
  endswith path ext = true ->
  forallb (fun c => negb (c =? SLASH)%N) ext = true ->
  endswith (os_path_basename path) ext = true.
Proof.
  unfold endswith, os_path_basename. intros H Hext.
  rewrite rev_involutive. apply startswith_span; [easy|].
  rewrite forallb_forall in *. intros c Hc. apply Hext.
  now apply in_rev.
Qed.

Lemma endswith_join (a b ext : str) :
  endswith b ext = true -> endswith (os_path_join a b) ext = true.
Proof.
  intros H. unfold os_path_join.
  destruct (startswith b (py "/")); [easy|].
  destruct (match a with [] => true | _ :: _ => endswith a (py "/") end).
  - now apply endswith_app.
  - apply endswith_app. now apply endswith_app.
Qed.

(** A recognised file name ends in one of the three extensions, and none
    of them holds a slash. *)
Lemma recognised_ext (file : str) :
  recognised file = true ->
  exists ext, endswith file ext = true
    /\ forallb (fun c => negb (c =? SLASH)%N) ext = true
    /\ endswith LOG_FILE_PATH ext = false.
Proof.
  unfold recognised. intros H.
  apply orb_true_iff in H as [H|H]; [apply orb_true_iff in H as [H|H]|].
  - exists (py ".html"). now repeat split.
  - exists (py ".js"). now repeat split.
  - exists (py ".css"). now repeat split.
Qed.

Lemma recognised_path_not_log (root file : str) :
  recognised file = true -> os_path_join root file <> LOG_FILE_PATH.
Proof.
  intros H E. destruct (recognised_ext _ H) as (ext & He & _ & Hl).
  apply (endswith_join root) in He. rewrite E in He. congruence.
Qed.


(** * Running the cleaners *)

Lemma log_message_run (message : str) (w : world) :
  log_message message w = Returned tt (logged message w).
Proof. reflexivity. Qed.

Lemma create_backup_run (w : world) (p c : str) :
  files w !! p = Some c ->
  files w !! backup_directory (DEFAULT_CONFIG w) = None ->
  p <> backup_path_of (DEFAULT_CONFIG w) p ->
  create_backup p w = Returned tt (backed_up p c w).
Proof.
  intros Hp Hd Hne.
  unfold create_backup, bind, get_config, os_makedirs, shutil_copy2.
  rewrite Hd. simpl. rewrite Hp.
  fold (backup_path_of (DEFAULT_CONFIG w) p).
  rewrite bool_decide_false by exact Hne. reflexivity.
Qed.

Lemma files_logged (message : str) (w : world) (q : str) :
  q <> LOG_FILE_PATH -> files (logged message w) !! q = files w !! q.
Proof. intros H. unfold logged. simpl. now rewrite lookup_insert_ne. Qed.


Lemma files_backed_up (w : world) (p c q : str) :
  q <> LOG_FILE_PATH -> q <> backup_path_of (DEFAULT_CONFIG w) p ->
  files (backed_up p c w) !! q = files w !! q.
Proof.
  intros H1 H2. unfold backed_up. rewrite files_logged by easy.
  simpl. now rewrite lookup_insert_ne.
Qed.



Section Runs.

Variable transform : config -> str -> str.
Variables dry_message done_message : str.

Lemma cleaner_run (w : world) (p c : str) :
  files w !! p = Some c ->
  files w !! backup_directory (DEFAULT_CONFIG w) = None ->
  p <> backup_path_of (DEFAULT_CONFIG w) p ->
  p <> LOG_FILE_PATH ->
  cleaner transform dry_message done_message p w
  = Returned tt (after_clean transform dry_message done_message p c w).
Proof.
  intros Hp Hd Hne Hlog. unfold cleaner, bind.
  rewrite (create_backup_run w p c) by easy.
  unfold read_text. rewrite files_backed_up by easy. rewrite Hp.
  unfold get_config, after_clean.
  change (DEFAULT_CONFIG (backed_up p c w)) with (DEFAULT_CONFIG w).
  destruct (dry_run (DEFAULT_CONFIG w)); reflexivity.
Qed.

End Runs.

Lemma clean_js_shape :
  clean_js = cleaner clean_js_text (py "Dry run: JS changes for ") (py "JavaScript cleaned: ").
Proof. reflexivity. Qed.

Lemma clean_css_shape :
  clean_css = cleaner clean_css_text (py "Dry run: CSS changes for ") (py "CSS cleaned: ").
Proof. reflexivity. Qed.

Lemma clean_html_shape (html_parser : str -> Soup.soup) (prettify : Soup.soup -> str) :
  clean_html html_parser prettify
  = cleaner (clean_html_text html_parser prettify)
      (py "Dry run: HTML changes for ") (py "HTML cleaned: ").
Proof. reflexivity. Qed.


Lemma files_after_clean_dry transform dry_message done_message (w : world) (p c q : str) :
  dry_run (DEFAULT_CONFIG w) = true ->
  q <> LOG_FILE_PATH -> q <> backup_path_of (DEFAULT_CONFIG w) p ->
  files (after_clean transform dry_message done_message p c w) !! q = files w !! q.
Proof.
  intros Hd H1 H2. unfold after_clean. rewrite Hd.
  rewrite files_logged by easy. now apply files_backed_up.
Qed.


Lemma files_after_clean_written transform dry_message done_message (w : world) (p c : str) :
  dry_run (DEFAULT_CONFIG w) = false ->
  p <> LOG_FILE_PATH ->
  files (after_clean transform dry_message done_message p c w) !! p
  = Some (transform (DEFAULT_CONFIG w) (universal_newlines c)).
Proof.
  intros Hd H1. unfold after_clean. rewrite Hd.
  rewrite files_logged by easy. simpl files at 1.
  now rewrite lookup_insert_eq.
Qed.


(** * Dry run *)




(** * Unrecognised files *)

(** C7. Visiting a file whose name ends in none of [.html], [.js] and
    [.css] changes nothing: the loop body returns the store it was given,
    so the file's content, the backup path it would have had and the log
    are as before, and nothing was printed. *)
Theorem unrecognised_file_is_skipped
    (html_parser : str -> Soup.soup) (prettify : Soup.soup -> str)
    (w : world) (root file : str) :
  recognised file = false ->
  exists w',
    clean_file html_parser prettify root file w = Returned tt w'
    /\ w' = w
    /\ files w' !! os_path_join root file = files w !! os_path_join root file
    /\ files w' !! backup_path_of (DEFAULT_CONFIG w) (os_path_join root file)
       = files w !! backup_path_of (DEFAULT_CONFIG w) (os_path_join root file)
    /\ log_of w' = log_of w
    /\ stdout w' = stdout w.
Proof.
  intros H. exists w. unfold clean_file, recognised in *.
  apply orb_false_iff in H as [H Hcss].
  apply orb_false_iff in H as [Hhtml Hjs].
  rewrite Hhtml, Hjs, Hcss. now repeat split.
Qed.

(** C7 at the file name [notes.txt]. *)
Lemma unrecognised_file_is_skipped_witness :
  exists w',
    clean_file one_string_parser strings_of (py "site") (py "notes.txt")
      (one_script_world initial_config) = Returned tt w'
    /\ w' = one_script_world initial_config
    /\ files w' !! os_path_join (py "site") (py "notes.txt")
       = files (one_script_world initial_config) !! os_path_join (py "site") (py "notes.txt")
    /\ files w' !! backup_path_of initial_config (os_path_join (py "site") (py "notes.txt"))
       = files (one_script_world initial_config)
           !! backup_path_of initial_config (os_path_join (py "site") (py "notes.txt"))
    /\ log_of w' = log_of (one_script_world initial_config)
    /\ stdout w' = stdout (one_script_world initial_config).
Proof.
  apply (unrecognised_file_is_skipped one_string_parser strings_of
           (one_script_world initial_config) (py "site") (py "notes.txt")).
  reflexivity.
Defined.

(** Over a whole walk: a path that ends in none of the three extensions
    and is not the log file keeps its content, whatever the walk visits
    and whether it ends or raises. The writes of a run go to the files it
    cleans, to their backup paths, which end as they do, and to the log. *)
Lemma cleaner_frame (transform : config -> str -> str) (dm done : str)
    (p : str) (w : world) (q : str) :
  q <> LOG_FILE_PATH -> q <> backup_path_of (DEFAULT_CONFIG w) p -> q <> p ->
  files (world_of (cleaner transform dm done p w)) !! q = files w !! q.
Proof.
  intros Hlog Hbp Hp.
  unfold cleaner, create_backup, bind, get_config, os_makedirs, shutil_copy2,
    read_text, write_text, log_message, print, append_text, backup_path_of in *.
  simpl.
  destruct (files w !! backup_directory (DEFAULT_CONFIG w)); [reflexivity|].
  simpl. destruct (files w !! p) as [c|]; [|reflexivity].
  case_bool_decide; [reflexivity|]. simpl.
  match goal with |- context [?m !! p] => destruct (m !! p) as [c'|] end; simpl.
  - destruct (dry_run (DEFAULT_CONFIG w)); simpl;
      now rewrite !lookup_insert_ne by easy.
  - now rewrite !lookup_insert_ne by easy.
Qed.

Lemma unrecognised_not_ext (q ext : str) :
  recognised q = false ->
  ext = py ".html" \/ ext = py ".js" \/ ext = py ".css" ->
  endswith q ext = false.
Proof.
  unfold recognised. intros H Hext.
  apply orb_false_iff in H as [H Hcss]. apply orb_false_iff in H as [Hhtml Hjs].
  now destruct Hext as [-> | [-> | ->] ].
Qed.

Lemma clean_file_frame (html_parser : str -> Soup.soup) (prettify : Soup.soup -> str)
    (root file : str) (w : world) (q : str) :
  recognised q = false -> q <> LOG_FILE_PATH ->
  files (world_of (clean_file html_parser prettify root file w)) !! q = files w !! q.
Proof.
  intros Hq Hlog.
  assert (forall ext, ext = py ".html" \/ ext = py ".js" \/ ext = py ".css" ->
            endswith file ext = true ->
            q <> backup_path_of (DEFAULT_CONFIG w) (os_path_join root file)
            /\ q <> os_path_join root file) as Hext.
  { intros ext Hext He.
    pose proof (unrecognised_not_ext q ext Hq Hext) as Hne.
    apply (endswith_join root) in He. split; intros ->.
    - apply endswith_basename in He;
        [|now destruct Hext as [-> | [-> | ->] ]].
      apply (endswith_join (backup_directory (DEFAULT_CONFIG w))) in He.
      unfold backup_path_of in Hne. congruence.
    - congruence. }
  unfold clean_file.
  destruct (endswith file (py ".html")) eqn:E1.
  { rewrite clean_html_shape. apply cleaner_frame; [easy|apply (Hext (py ".html"))..]; auto. }
  destruct (endswith file (py ".js")) eqn:E2.
  { rewrite clean_js_shape. apply cleaner_frame; [easy|apply (Hext (py ".js"))..]; auto. }
  destruct (endswith file (py ".css")) eqn:E3; [|reflexivity].
  rewrite clean_css_shape. apply cleaner_frame; [easy|apply (Hext (py ".css"))..]; auto.
Qed.

Lemma for_each_frame {A} (body : A -> M unit) (q : str) :
  (forall x w, files (world_of (body x w)) !! q = files w !! q) ->
  forall xs w, files (world_of (for_each body xs w)) !! q = files w !! q.
Proof.
  intros H xs. induction xs as [|x xs IH]; intros w; [reflexivity|].
  cbn [for_each]. unfold bind. specialize (H x w).
  destruct (body x w) as [[] w'|e w']; cbn [world_of] in *.
  - now rewrite IH.
  - exact H.
Qed.

Lemma clean_directory_frame (html_parser : str -> Soup.soup) (prettify : Soup.soup -> str)
    (directory fmt : str) (walk : list (str * list str * list str)) (w : world) (q : str) :
  recognised q = false -> q <> LOG_FILE_PATH ->
  files (world_of (clean_directory html_parser prettify directory fmt walk w)) !! q
  = files w !! q.
Proof.
  intros Hq Hlog. unfold clean_directory, bind, os_path_exists, update_config.
  cbn beta iota.
  change (files w !! q)
    with (files (with_config (set_clean_format fmt (DEFAULT_CONFIG w)) w) !! q).
  match goal with |- context [negb ?b] => destruct b end; cbn [negb].
  - apply (for_each_frame _ q
             (fun entry w0 => for_each_frame _ q
                (fun file w1 => clean_file_frame html_parser prettify
                                  (fst (fst entry)) file w1 q Hq Hlog)
                (snd entry) w0)).
  - rewrite log_message_run. cbn [world_of]. now rewrite files_logged.
Qed.

(** * The watermark *)

(** C1. For every text and every configuration, whatever the format,
    the output of each of the three cleaners opens with the watermark
    literal, character by character, and what follows it is the cleaned
    content. *)
Theorem watermark_is_first
    (html_parser : str -> Soup.soup) (prettify : Soup.soup -> str)
    (cfg : config) (text : str) :
  (firstn (length WATERMARK) (clean_html_text html_parser prettify cfg text) = WATERMARK
   /\ skipn (length WATERMARK) (clean_html_text html_parser prettify cfg text)
      = html_body html_parser prettify cfg text)
  /\ (firstn (length WATERMARK) (clean_js_text cfg text) = WATERMARK
      /\ skipn (length WATERMARK) (clean_js_text cfg text) = js_body cfg text)
  /\ (firstn (length WATERMARK) (clean_css_text cfg text) = WATERMARK
      /\ skipn (length WATERMARK) (clean_css_text cfg text) = css_body cfg text).
Proof.
  unfold clean_html_text, clean_js_text, clean_css_text, add_watermark.
  repeat split; first [apply take_app_length | apply drop_app_length].
Qed.

(** After a run that writes, the file holds the watermark and then the
    cleaned content of what it held. *)
Lemma cleaned_file_opens_with_watermark
    (html_parser : str -> Soup.soup) (prettify : Soup.soup -> str)
    (w : world) (root file c : str) :
  let cfg := DEFAULT_CONFIG w in
  let p := os_path_join root file in
  dry_run cfg = false ->
  recognised file = true ->
  files w !! p = Some c ->
  files w !! backup_directory cfg = None ->
  p <> backup_path_of cfg p ->
  exists w' body,
    clean_file html_parser prettify root file w = Returned tt w'
    /\ files w' !! p = Some (WATERMARK ++ body)
    /\ (endswith file (py ".html") = false -> endswith file (py ".js") = true ->
        body = js_body cfg (universal_newlines c)).
Proof.
  intros cfg p Hdry Hrec Hp Hdir Hne.
  pose proof (recognised_path_not_log root file Hrec) as Hlog. fold p in Hlog.
  unfold clean_file. fold p.
  destruct (endswith file (py ".html")) eqn:E1.
  { rewrite clean_html_shape, (cleaner_run _ _ _ w p c) by easy.
    eexists _, _. split; [reflexivity|]. split; [|discriminate].
    now rewrite files_after_clean_written. }
  destruct (endswith file (py ".js")) eqn:E2.
  { rewrite clean_js_shape, (cleaner_run _ _ _ w p c) by easy.
    eexists _, _. split; [reflexivity|]. split; [|reflexivity].
    now rewrite files_after_clean_written. }
  unfold recognised in Hrec. rewrite E1, E2 in Hrec. cbn [orb] in Hrec. rewrite Hrec.
  rewrite clean_css_shape, (cleaner_run _ _ _ w p c) by easy.
  eexists _, _. split; [reflexivity|]. split; [|discriminate].
  now rewrite files_after_clean_written.
Qed.

(** * Options that do not reach a cleaner *)

(** Two dictionaries that agree on the backup directory and the dry run
    and give the same text leave the same store behind. *)
Lemma cleaner_observable (t1 t2 : config -> str -> str) (dm done : str)
    (cfg1 cfg2 : config) (w : world) (p : str) :
  backup_directory cfg1 = backup_directory cfg2 ->
  dry_run cfg1 = dry_run cfg2 ->
  (forall s, t1 cfg1 s = t2 cfg2 s) ->
  observable (cleaner t1 dm done p (with_config cfg1 w))
  = observable (cleaner t2 dm done p (with_config cfg2 w)).
Proof.
  intros Hb Hd Ht.
  unfold cleaner, create_backup, bind, get_config, os_makedirs, shutil_copy2,
    read_text, write_text, log_message, print, append_text.
  simpl. rewrite <- Hb.
  destruct (files w !! backup_directory cfg1); [reflexivity|].
  simpl. destruct (files w !! p) as [c|]; [|reflexivity].
  case_bool_decide; [reflexivity|]. simpl.
  match goal with |- context [?m !! p] => destruct (m !! p) as [c'|] end;
    [|reflexivity].
  simpl. rewrite <- Hd.
  destruct (dry_run cfg1); simpl; [reflexivity|].
  now rewrite Ht.
Qed.

(** C8. For every stylesheet and every setting of the other options, the
    cleaner's text with [optimize_css] on is its text with the option off,
    and so is everything a run of [clean_css] leaves behind. *)
Theorem optimize_css_is_a_no_op (cfg : config) (css_code : str) (w : world) (p : str) :
  clean_css_text (set_optimize_css true cfg) css_code
  = clean_css_text (set_optimize_css false cfg) css_code
  /\ observable (clean_css p (with_config (set_optimize_css true cfg) w))
     = observable (clean_css p (with_config (set_optimize_css false cfg) w)).
Proof.
  assert (forall s, clean_css_text (set_optimize_css true cfg) s
                    = clean_css_text (set_optimize_css false cfg) s) as H.
  { intros s. unfold clean_css_text, css_body, css_optimize. reflexivity. }
  split; [apply H|].
  rewrite clean_css_shape. now apply cleaner_observable.
Qed.

(** C10. For every script and stylesheet and every setting of the other
    options, the texts of [clean_js] and [clean_css] are the same with
    [normalize_indentation] on and off, and so is everything a run leaves
    behind: the option is read by [clean_html] alone. *)
Theorem normalize_indentation_only_markup (cfg : config) (code : str) (w : world) (p : str) :
  clean_js_text (set_normalize_indentation true cfg) code
  = clean_js_text (set_normalize_indentation false cfg) code
  /\ clean_css_text (set_normalize_indentation true cfg) code
     = clean_css_text (set_normalize_indentation false cfg) code
  /\ observable (clean_js p (with_config (set_normalize_indentation true cfg) w))
     = observable (clean_js p (with_config (set_normalize_indentation false cfg) w))
  /\ observable (clean_css p (with_config (set_normalize_indentation true cfg) w))
     = observable (clean_css p (with_config (set_normalize_indentation false cfg) w)).
Proof.
  repeat split; try reflexivity.
  - rewrite clean_js_shape. now apply cleaner_observable.
  - rewrite clean_css_shape. now apply cleaner_observable.
Qed.

(** * Comments of a document tree *)

(** What [extract_all f] leaves of the comments of a tree: those whose
    text [f] rejects. *)
Lemma comments_extract_strings (f : str -> bool) (n : Soup.node) :
  flat_map Soup.comments_of (Soup.extract_strings f n)
  = List.filter (fun c => negb (f c)) (Soup.comments_of n).
Proof.
  revert n. fix IH 1. intros [name attrs contents | cls value].
  - simpl. rewrite app_nil_r.
    induction contents as [|c cs IHcs]; simpl; [reflexivity|].
    rewrite flat_map_app, List.filter_app. now rewrite IH, IHcs.
  - simpl. destruct (f value) eqn:E; destruct cls; simpl; rewrite ?E; reflexivity.
Qed.

Lemma comments_extract_all (f : str -> bool) (tree : Soup.soup) :
  Soup.comments (Soup.extract_all f tree)
  = List.filter (fun c => negb (f c)) (Soup.comments tree).
Proof.
  unfold Soup.comments, Soup.extract_all.
  induction tree as [|n tree IH]; simpl; [reflexivity|].
  now rewrite flat_map_app, List.filter_app, comments_extract_strings, IH.
Qed.

(** With [remove_comments] on, the comments left in the tree are those
    whose own text does not begin with the four characters of a comment
    opener. *)
Lemma html_remove_comments_keeps (cfg : config) (tree : Soup.soup) :
  remove_comments cfg = true ->
  Soup.comments (html_remove_comments cfg tree)
  = List.filter (fun c => negb (startswith c (py "<!--"))) (Soup.comments tree).
Proof.
  intros H. unfold html_remove_comments. rewrite H.
  apply comments_extract_all.
Qed.

(** C2, at the page [<p>x</p><!-- note -->]: with [remove_comments] on,
    the tree comes back as it was, and its comment is still in it. *)
Theorem comment_survives_removal :
  html_remove_comments initial_config noted_page = noted_page
  /\ Soup.comments (html_remove_comments initial_config noted_page) = [py " note "].
Proof. split; reflexivity. Qed.

(** * The substitution scanner *)

Lemma scan_sub_skip (m : str -> option nat) (r : str -> str) (k : nat) (s : str) :
  scan_sub m r k s = scan_sub m r 0 (skipn k s).
Proof.
  revert k. induction s as [|c s IH]; intros [|k]; try reflexivity.
  simpl skipn. rewrite <- IH. reflexivity.
Qed.

(** One step of [re.sub]: a match at the head is replaced and scanning
    goes on behind it; otherwise the head is kept. *)
Lemma sub_cons (m : str -> option nat) (r : str -> str) (c : N) (rest : str) :
  Re.sub m r (c :: rest)
  = match m (c :: rest) with
    | Some (S k) => r (firstn (S k) (c :: rest)) ++ Re.sub m r (skipn k rest)
    | _ => c :: Re.sub m r rest
    end.
Proof.
  unfold Re.sub. cbn [scan_sub].
  destruct (m (c :: rest)) as [[|k]|]; try reflexivity.
  now rewrite scan_sub_skip.
Qed.

Lemma sub_nil (m : str -> option nat) (r : str -> str) : Re.sub m r [] = [].
Proof. reflexivity. Qed.

(** A text none of whose characters can open a match is left alone. *)
Lemma sub_no_opener (m : str -> option nat) (r : str -> str) (P : N -> bool) (s : str) :
  (forall c t, P c = true -> m (c :: t) = None) ->
  forallb P s = true -> Re.sub m r s = s.
Proof.
  intros Hm. induction s as [|c s IH]; [reflexivity|].
  simpl. intros H. apply andb_true_iff in H as [Hc Hs].
  rewrite sub_cons, (Hm c s Hc). now rewrite IH.
Qed.

Lemma replace_no_opener (c : N) (old new s : str) :
  forallb (fun d => negb (d =? c)%N) s = true ->
  replace (c :: old) new s = s.
Proof.
  intros H. unfold replace.
  apply (sub_no_opener _ _ (fun d => negb (d =? c)%N)); [|exact H].
  intros d t Hd. cbn [startswith].
  apply negb_true_iff in Hd. now rewrite Hd.
Qed.

Lemma blank_gap_no_opener (s : str) :
  forallb (fun d => negb (d =? LF)%N) s = true ->
  Re.sub Re.blank_gap Re.to_newline s = s.
Proof.
  apply sub_no_opener. intros d t Hd. unfold Re.blank_gap.
  apply negb_true_iff in Hd. now rewrite Hd.
Qed.

(** * Collapsing whitespace *)

Lemma lstrip_span (s : str) : lstrip s = skipn (span is_space s) s.
Proof.
  induction s as [|c s IH]; [reflexivity|].
  simpl. destruct (is_space c); [exact IH|reflexivity].
Qed.

Lemma length_lstrip (s : str) : length (lstrip s) <= length s.
Proof.
  induction s as [|c s IH]; simpl; [lia|].
  destruct (is_space c); simpl; lia.
Qed.

Lemma lstrip_head (s : str) :
  match lstrip s with
  | [] => True
  | d :: _ => is_space d = false
  end.
Proof.
  induction s as [|c s IH]; simpl; [exact I|].
  destruct (is_space c) eqn:E; [exact IH|exact E].
Qed.

Lemma ink_cons (c : N) (s : str) :
  ink (c :: s) = if is_space c then ink s else c :: ink s.
Proof. unfold ink. cbn [List.filter]. now destruct (is_space c). Qed.

Lemma ink_app (s t : str) : ink (s ++ t) = ink s ++ ink t.
Proof. apply List.filter_app. Qed.

Lemma ink_lstrip (s : str) : ink (lstrip s) = ink s.
Proof.
  induction s as [|c s IH]; [reflexivity|].
  cbn [lstrip]. rewrite (ink_cons c s).
  destruct (is_space c) eqn:E; [exact IH|].
  now rewrite ink_cons, E.
Qed.

(** [re.sub(r"\s+", " ", s)], one character at a time. *)
Lemma collapse_cons (c : N) (rest : str) :
  Re.sub Re.whitespace_run Re.to_space (c :: rest)
  = if is_space c
    then SPACE :: Re.sub Re.whitespace_run Re.to_space (lstrip rest)
    else c :: Re.sub Re.whitespace_run Re.to_space rest.
Proof.
  rewrite sub_cons. unfold Re.whitespace_run. cbn [span].
  destruct (is_space c); [|reflexivity].
  now rewrite lstrip_span.
Qed.

Lemma collapse_head (s : str) :
  match s with
  | [] => True
  | d :: _ => is_space d = false
  end ->
  match Re.sub Re.whitespace_run Re.to_space s with
  | [] => True
  | d :: _ => is_space d = false
  end.
Proof.
  destruct s as [|d s]; [easy|]. intros H. now rewrite collapse_cons, H.
Qed.

(** Induction along a collapse: behind a whitespace character the run it
    opens is passed over. *)
Lemma length_ind (P : str -> Prop) :
  (forall s, (forall t, length t < length s -> P t) -> P s) -> forall s, P s.
Proof.
  intros H s. remember (length s) as n eqn:Hn. revert s Hn.
  induction n as [n IH] using lt_wf_ind. intros s ->.
  apply H. intros t Ht. now apply (IH (length t)).
Qed.

Lemma collapse_elim (P : str -> Prop) :
  P [] ->
  (forall c rest, is_space c = true -> P (lstrip rest) -> P (c :: rest)) ->
  (forall c rest, is_space c = false -> P rest -> P (c :: rest)) ->
  forall s, P s.
Proof.
  intros Hnil Hspace Hplain s. induction s as [s IH] using length_ind.
  destruct s as [|c rest]; [exact Hnil|]. destruct (is_space c) eqn:E.
  - apply Hspace; [exact E|]. apply IH.
    pose proof (length_lstrip rest). simpl. lia.
  - apply Hplain; [exact E|]. apply IH. simpl. lia.
Qed.

Lemma collapse_single_spaced (s : str) :
  single_spaced (Re.sub Re.whitespace_run Re.to_space s) = true.
Proof.
  induction s as [|c rest E IH|c rest E IH] using collapse_elim.
  - reflexivity.
  - rewrite collapse_cons, E. cbn [single_spaced].
    change (is_space SPACE) with true. cbv iota. rewrite N.eqb_refl, IH.
    pose proof (collapse_head (lstrip rest) (lstrip_head rest)) as Hh.
    destruct (Re.sub Re.whitespace_run Re.to_space (lstrip rest)); [reflexivity|].
    now rewrite Hh.
  - rewrite collapse_cons, E. cbn [single_spaced]. now rewrite E, IH.
Qed.

Lemma collapse_ink (s : str) :
  ink (Re.sub Re.whitespace_run Re.to_space s) = ink s.
Proof.
  induction s as [|c rest E IH|c rest E IH] using collapse_elim.
  - reflexivity.
  - rewrite collapse_cons, E, !ink_cons, E. change (is_space SPACE) with true.
    cbv iota. rewrite IH. apply ink_lstrip.
  - rewrite collapse_cons, E, !ink_cons, E. now rewrite IH.
Qed.

Lemma words_lstrip (s : str) : words (lstrip s) = words s.
Proof.
  induction s as [|c s IH]; [reflexivity|].
  cbn [lstrip]. destruct (is_space c) eqn:E; [|reflexivity].
  cbn [words]. now rewrite E.
Qed.

(** Collapsing keeps the tokens and what separates them. *)
Lemma collapse_words (s : str) :
  words (Re.sub Re.whitespace_run Re.to_space s) = words s.
Proof.
  induction s as [|c rest E IH|c rest E IH] using collapse_elim.
  - reflexivity.
  - rewrite collapse_cons, E. cbn [words]. change (is_space SPACE) with true.
    rewrite E. cbv iota. rewrite IH. apply words_lstrip.
  - rewrite collapse_cons, E. cbn [words]. rewrite E, IH.
    destruct rest as [|d r]; [reflexivity|].
    rewrite collapse_cons. destruct (is_space d) eqn:Ed.
    + change (is_space SPACE) with true. reflexivity.
    + rewrite Ed. reflexivity.
Qed.

Lemma single_spaced_no_linefeed (s : str) :
  single_spaced s = true -> forallb (fun d => negb (d =? LF)%N) s = true.
Proof.
  induction s as [|c s IH]; [reflexivity|].
  cbn [single_spaced forallb]. intros H.
  apply andb_true_iff in H as [Hc Hs]. rewrite (IH Hs), andb_true_r.
  destruct (c =? LF)%N eqn:E; [|reflexivity].
  apply N.eqb_eq in E. subst c. discriminate Hc.
Qed.

(** * Minifying a script *)

(** What [js_minify] leaves: whitespace only as single spaces, no line
    feed, and the characters that are not whitespace as they were. *)
Lemma js_minified_spec (cfg : config) (js_code : str) :
  js_minify cfg = true ->
  js_minified cfg js_code = Re.sub Re.whitespace_run Re.to_space js_code
  /\ single_spaced (js_minified cfg js_code) = true
  /\ forallb (fun c => negb (c =? LF)%N) (js_minified cfg js_code) = true
  /\ words (js_minified cfg js_code) = words js_code.
Proof.
  intros H. unfold js_minified. rewrite H.
  pose proof (collapse_single_spaced js_code) as Hs.
  pose proof (single_spaced_no_linefeed _ Hs) as Hl.
  rewrite (replace_no_opener LF [] [] _ Hl).
  repeat split; try easy. apply collapse_words.
Qed.

(** C4 as worded fails: the minified output of the example holds line
    feeds, those of the watermark, and is eight lines long. *)
Lemma minified_output_has_line_feeds :
  forallb (fun c => negb (c =? LF)%N)
    (clean_js_text (set_js_minify true initial_config) three_line_js) = false
  /\ line_count (clean_js_text (set_js_minify true initial_config) three_line_js) = 8.
Proof. split; vm_compute; reflexivity. Qed.

(** C4, amended. With [js_minify] on, the content after the minify step
    has only single spaces as whitespace, no line feed, and the tokens it
    had before, in order; the output is the watermark, which has line
    feeds of its own, followed by that content, in readable format with a
    line feed behind every closing brace. For the script of the example the
    content is [function f() { return 1; }]. *)
Theorem minify_collapses_whitespace (cfg : config) (js_code : str) :
  js_minify cfg = true ->
  let stripped := strip_lines (js_remove_comments cfg js_code) in
  let minified := js_minified cfg stripped in
  single_spaced minified = true
  /\ forallb (fun c => negb (c =? LF)%N) minified = true
  /\ words minified = words stripped
  /\ clean_js_text cfg js_code
     = WATERMARK ++ (if is_compact cfg then minified
                     else if is_readable cfg then brace_newline minified
                     else minified)
  /\ js_minified cfg (strip_lines (js_remove_comments cfg three_line_js))
     = py "function f() { return 1; }"
  /\ clean_js_text cfg three_line_js
     = WATERMARK ++ (if is_compact cfg then py "function f() { return 1; }"
                     else if is_readable cfg then py "function f() { return 1; }" ++ [LF]
                     else py "function f() { return 1; }").
Proof.
  intros H stripped minified.
  destruct (js_minified_spec cfg stripped H) as (_ & Hs & Hl & Hi).
  fold minified in Hs, Hl, Hi.
  assert (js_minified cfg (strip_lines (js_remove_comments cfg three_line_js))
          = py "function f() { return 1; }") as Hex.
  { unfold js_minified, js_remove_comments. rewrite H.
    destruct (remove_comments cfg); vm_compute; reflexivity. }
  repeat split; try assumption.
  - unfold clean_js_text, add_watermark, js_body, js_format.
    fold stripped. fold minified.
    now rewrite (blank_gap_no_opener minified Hl).
  - unfold clean_js_text, add_watermark, js_body, js_format.
    rewrite Hex.
    destruct (is_compact cfg); [vm_compute; reflexivity|].
    destruct (is_readable cfg); vm_compute; reflexivity.
Qed.

(** C4, amended, at the dictionary of the module with [js_minify] on. *)
Lemma minify_collapses_whitespace_witness :
  let cfg := set_js_minify true initial_config in
  let js_code := py "var  a;" ++ [LF; LF] ++ py "var b;" in
  let stripped := strip_lines (js_remove_comments cfg js_code) in
  let minified := js_minified cfg stripped in
  single_spaced minified = true
  /\ forallb (fun c => negb (c =? LF)%N) minified = true
  /\ words minified = words stripped
  /\ clean_js_text cfg js_code
     = WATERMARK ++ (if is_compact cfg then minified
                     else if is_readable cfg then brace_newline minified
                     else minified)
  /\ js_minified cfg (strip_lines (js_remove_comments cfg three_line_js))
     = py "function f() { return 1; }"
  /\ clean_js_text cfg three_line_js
     = WATERMARK ++ (if is_compact cfg then py "function f() { return 1; }"
                     else if is_readable cfg then py "function f() { return 1; }" ++ [LF]
                     else py "function f() { return 1; }").
Proof.
  apply (minify_collapses_whitespace (set_js_minify true initial_config)
           (py "var  a;" ++ [LF; LF] ++ py "var b;")).
  reflexivity.
Defined.

(** * Comments of a stylesheet *)

(** C5 as worded fails: the output for the example holds a comment
    opener and a closer, those of the watermark. *)
Lemma cleaned_css_has_comment_marks :
  contains (clean_css_text initial_config commented_css) (py "/*") = true
  /\ contains (clean_css_text initial_config commented_css) (py "*/") = true.
Proof. split; vm_compute; reflexivity. Qed.

(** C5, amended. With [remove_comments] on, the output for the
    stylesheet of the example is the watermark followed by a content
    that holds neither comment mark and holds both rules. *)
Theorem css_comment_removed_behind_watermark (cfg : config) :
  remove_comments cfg = true ->
  clean_css_text cfg commented_css = WATERMARK ++ css_body cfg commented_css
  /\ css_body cfg commented_css
     = (if is_compact cfg then py "a{color:red;}  b{}"
        else if is_readable cfg then py "a{color:red;}" ++ [LF] ++ py "  b{}" ++ [LF]
        else py "a{color:red;}  b{}")
  /\ contains (css_body cfg commented_css) (py "/*") = false
  /\ contains (css_body cfg commented_css) (py "*/") = false
  /\ contains (css_body cfg commented_css) (py "a{color:red;}") = true
  /\ contains (css_body cfg commented_css) (py "b{}") = true.
Proof.
  intros H. split; [reflexivity|].
  unfold css_body, css_format, css_optimize, css_remove_comments. rewrite H.
  destruct (optimize_css cfg), (is_compact cfg), (is_readable cfg);
    repeat split; vm_compute; reflexivity.
Qed.

(** C5, amended, at the dictionary of the module. *)
Lemma css_comment_removed_behind_watermark_witness :
  clean_css_text initial_config commented_css
  = WATERMARK ++ css_body initial_config commented_css
  /\ css_body initial_config commented_css
     = (if is_compact initial_config then py "a{color:red;}  b{}"
        else if is_readable initial_config
             then py "a{color:red;}" ++ [LF] ++ py "  b{}" ++ [LF]
             else py "a{color:red;}  b{}")
  /\ contains (css_body initial_config commented_css) (py "/*") = false
  /\ contains (css_body initial_config commented_css) (py "*/") = false
  /\ contains (css_body initial_config commented_css) (py "a{color:red;}") = true
  /\ contains (css_body initial_config commented_css) (py "b{}") = true.
Proof.
  apply (css_comment_removed_behind_watermark initial_config). reflexivity.
Defined.

(** * Lines *)

Lemma linebreak_is_space (c : N) : is_linebreak c = true -> is_space c = true.
Proof.
  unfold is_linebreak, linebreak_table. cbn [existsb].
  rewrite !orb_true_iff. intros H.
  repeat (destruct H as [H|H]); try discriminate;
    apply N.eqb_eq in H; subst c; reflexivity.
Qed.

Lemma splitlines_LF (b : str) : splitlines (LF :: b) = [] :: splitlines b.
Proof. destruct b; reflexivity. Qed.

Lemma splitlines_plain (c : N) (rest : str) :
  is_linebreak c = false ->
  splitlines (c :: rest)
  = match splitlines rest with
    | [] => [[c]]
    | l :: ls => (c :: l) :: ls
    end.
Proof. intros H. cbn [splitlines]. now rewrite H. Qed.

Lemma splitlines_nil_inv (s : str) : splitlines s = [] -> s = [].
Proof.
  destruct s as [|c rest]; [reflexivity|]. cbn [splitlines].
  destruct (is_linebreak c); [discriminate|].
  destruct (splitlines rest); discriminate.
Qed.

Lemma splitlines_break (c : N) (rest : str) :
  is_linebreak c = true -> crlf c rest = false ->
  splitlines (c :: rest) = [] :: splitlines rest.
Proof.
  intros Ec E. cbn [splitlines]. rewrite Ec. unfold crlf in E.
  destruct rest as [|c' rest']; [reflexivity|]. now rewrite E.
Qed.

Lemma splitlines_CRLF (rest : str) :
  splitlines (CR :: LF :: rest) = [] :: splitlines rest.
Proof. reflexivity. Qed.

(** Induction along [splitlines]: the empty text, a carriage return with
    its line feed, any other boundary, and a character of a line. *)
Lemma splitlines_elim (P : str -> Prop) :
  P [] ->
  (forall rest, P rest -> P (CR :: LF :: rest)) ->
  (forall c rest, is_linebreak c = true -> crlf c rest = false -> P rest -> P (c :: rest)) ->
  (forall c rest, is_linebreak c = false -> P rest -> P (c :: rest)) ->
  forall s, P s.
Proof.
  intros Hnil Hcrlf Hbreak Hplain s. induction s as [s IH] using length_ind.
  destruct s as [|c rest]; [exact Hnil|]. destruct (is_linebreak c) eqn:Ec.
  - destruct (crlf c rest) eqn:E.
    + unfold crlf in E. destruct rest as [|c' rest']; [now rewrite andb_false_r in E|].
      apply andb_true_iff in E as [E1 E2].
      apply N.eqb_eq in E1, E2. subst c c'.
      apply Hcrlf. apply IH. simpl. lia.
    + apply Hbreak; [exact Ec|exact E|]. apply IH. simpl. lia.
  - apply Hplain; [exact Ec|]. apply IH. simpl. lia.
Qed.

(** Every line of [splitlines] is free of line boundaries. *)
Lemma splitlines_no_break (s : str) :
  Forall (fun l => no_break l = true) (splitlines s).
Proof.
  induction s as [|rest IH|c rest Ec E IH|c rest Ec IH] using splitlines_elim.
  - constructor.
  - rewrite splitlines_CRLF. now constructor.
  - rewrite splitlines_break by easy. now constructor.
  - rewrite splitlines_plain by exact Ec.
    destruct (splitlines rest) as [|l ls].
    + repeat constructor. unfold no_break. cbn [forallb]. now rewrite Ec.
    + inversion IH as [|? ? Hl Hls]; subst. constructor; [|exact Hls].
      unfold no_break in *. cbn [forallb]. now rewrite Ec, Hl.
Qed.

(** A line feed closes the line before it: the lines of a text are those
    up to the line feed followed by those behind it. *)
Lemma splitlines_app_LF (a b : str) :
  splitlines (a ++ LF :: b) = splitlines (a ++ [LF]) ++ splitlines b.
Proof.
  induction a as [|rest IH|c rest Ec E IH|c rest Ec IH] using splitlines_elim.
  - cbn [app]. now rewrite splitlines_LF.
  - cbn [app]. rewrite !splitlines_CRLF, IH. reflexivity.
  - destruct rest as [|c' rest'].
    + cbn [app] in *. destruct (c =? CR)%N eqn:EC.
      * apply N.eqb_eq in EC. subst c. reflexivity.
      * assert (forall t, crlf c t = false) as Hc
          by (intros t; unfold crlf; now rewrite EC).
        rewrite (splitlines_break c), (splitlines_break c) by easy.
        now rewrite splitlines_LF.
    + cbn [app] in *.
      rewrite (splitlines_break c (c' :: rest' ++ LF :: b) Ec E).
      rewrite (splitlines_break c (c' :: rest' ++ [LF]) Ec E).
      now rewrite IH.
  - cbn [app]. rewrite !splitlines_plain by exact Ec. rewrite IH.
    destruct (splitlines (rest ++ [LF])) as [|l ls] eqn:E; [|reflexivity].
    apply splitlines_nil_inv in E. now destruct rest.
Qed.

Lemma splitlines_line (l t : str) :
  no_break l = true -> splitlines (l ++ LF :: t) = l :: splitlines t.
Proof.
  induction l as [|c l IH]; intros H.
  - apply splitlines_LF.
  - unfold no_break in H. cbn [forallb] in H.
    apply andb_true_iff in H as [Hc Hl]. apply negb_true_iff in Hc.
    cbn [app]. rewrite splitlines_plain by exact Hc. now rewrite IH.
Qed.

Lemma splitlines_single (l : str) :
  no_break l = true -> l <> [] -> splitlines l = [l].
Proof.
  induction l as [|c l IH]; [easy|]. intros H _.
  unfold no_break in H. cbn [forallb] in H.
  apply andb_true_iff in H as [Hc Hl]. apply negb_true_iff in Hc.
  rewrite splitlines_plain by exact Hc.
  destruct l as [|d l']; [reflexivity|]. now rewrite IH.
Qed.

(** Joining lines with line feeds and splitting again gives the lines
    back, as long as none is empty or holds a boundary. *)
Lemma splitlines_join (ls : list str) :
  Forall (fun l => l <> [] /\ no_break l = true) ls ->
  splitlines (join [LF] ls) = ls.
Proof.
  induction 1 as [|l ls [Hne Hnb] Hls IH]; [reflexivity|].
  cbn [join]. destruct ls as [|l2 ls'].
  - now apply splitlines_single.
  - cbn [app]. rewrite splitlines_line by exact Hnb. now rewrite IH.
Qed.

(** * Stripping *)

Lemma forallb_lstrip (P : N -> bool) (s : str) :
  forallb P s = true -> forallb P (lstrip s) = true.
Proof.
  induction s as [|c s IH]; [easy|]. cbn [lstrip forallb]. intros H.
  destruct (is_space c); [|exact H].
  apply andb_true_iff in H as [_ H]. now apply IH.
Qed.

Lemma forallb_rev (P : N -> bool) (s : str) : forallb P (rev s) = forallb P s.
Proof.
  induction s as [|c s IH]; [reflexivity|].
  cbn [rev forallb]. rewrite forallb_app, IH. cbn [forallb].
  rewrite andb_true_r. apply andb_comm.
Qed.

Lemma no_break_strip (l : str) : no_break l = true -> no_break (strip l) = true.
Proof.
  unfold no_break, strip, rstrip. intros H.
  rewrite forallb_rev. apply forallb_lstrip.
  rewrite forallb_rev. now apply forallb_lstrip.
Qed.

Lemma lstrip_fixed (t : str) :
  match t with [] => True | d :: _ => is_space d = false end -> lstrip t = t.
Proof. destruct t as [|d t]; [easy|]. intros H. cbn [lstrip]. now rewrite H. Qed.

Lemma lstrip_idem (s : str) : lstrip (lstrip s) = lstrip s.
Proof. apply lstrip_fixed, lstrip_head. Qed.

Lemma lstrip_split (s : str) :
  s = firstn (span is_space s) s ++ lstrip s.
Proof. rewrite lstrip_span. symmetry. apply firstn_skipn. Qed.

(** [strip] leaves a text whose two ends are not whitespace. *)
Lemma lstrip_strip (l : str) : lstrip (strip l) = strip l.
Proof.
  apply lstrip_fixed. unfold strip, rstrip.
  pose proof (lstrip_split (rev (lstrip l))) as Hs.
  pose proof (lstrip_head l) as Hh.
  destruct (rev (lstrip (rev (lstrip l)))) as [|d t] eqn:E; [exact I|].
  apply (f_equal (@rev N)) in Hs.
  rewrite rev_involutive, rev_app_distr, E in Hs.
  rewrite Hs in Hh. exact Hh.
Qed.

Lemma rstrip_strip (l : str) : rstrip (strip l) = strip l.
Proof.
  unfold strip, rstrip. now rewrite rev_involutive, lstrip_idem.
Qed.

Lemma strip_idem (l : str) : strip (strip l) = strip l.
Proof. unfold strip at 1. now rewrite lstrip_strip, rstrip_strip. Qed.

Lemma ink_rev (s : str) : ink (rev s) = rev (ink s).
Proof. apply List.filter_rev. Qed.

Lemma ink_strip (l : str) : ink (strip l) = ink l.
Proof.
  unfold strip, rstrip.
  now rewrite ink_rev, ink_lstrip, ink_rev, rev_involutive, ink_lstrip.
Qed.

(** * The line comprehension *)

Lemma nonblank_stripped_app (a b : list str) :
  nonblank_stripped (a ++ b) = nonblank_stripped a ++ nonblank_stripped b.
Proof. unfold nonblank_stripped. now rewrite List.filter_app, map_app. Qed.

Lemma nonblank_stripped_trimmed (ls : list str) :
  Forall (fun l => no_break l = true) ls ->
  Forall trimmed_line (nonblank_stripped ls).
Proof.
  unfold nonblank_stripped.
  induction 1 as [|l ls Hl Hls IH]; [constructor|].
  cbn [List.filter]. destruct (strip l) as [|d t] eqn:E; [exact IH|].
  cbn [map]. constructor; [|exact IH].
  rewrite E. repeat split.
  - discriminate.
  - rewrite <- E. now apply no_break_strip.
  - rewrite <- E. apply strip_idem.
Qed.

Lemma nonblank_stripped_fixed (ls : list str) :
  Forall trimmed_line ls -> nonblank_stripped ls = ls.
Proof.
  unfold nonblank_stripped.
  induction 1 as [|l ls (Hne & Hnb & Hs) Hls IH]; [reflexivity|].
  cbn [List.filter]. rewrite Hs.
  destruct l as [|d t]; [easy|]. cbn [map]. now rewrite Hs, IH.
Qed.

Lemma trimmed_lines_joinable (ls : list str) :
  Forall trimmed_line ls -> Forall (fun l => l <> [] /\ no_break l = true) ls.
Proof. apply List.Forall_impl. now intros l (? & ? & ?). Qed.

(** The lines of [strip_lines text] are the lines of [text] that are not
    blank, each stripped. *)
Lemma splitlines_strip_lines (text : str) :
  splitlines (strip_lines text) = nonblank_stripped (splitlines text)
  /\ Forall trimmed_line (splitlines (strip_lines text)).
Proof.
  pose proof (nonblank_stripped_trimmed _ (splitlines_no_break text)) as H.
  unfold strip_lines.
  rewrite splitlines_join by now apply trimmed_lines_joinable.
  now split.
Qed.

(** A second pass finds nothing to do. *)
Lemma strip_lines_idem (text : str) :
  strip_lines (strip_lines text) = strip_lines text.
Proof.
  destruct (splitlines_strip_lines text) as [E H].
  unfold strip_lines at 1. rewrite E.
  rewrite nonblank_stripped_fixed; [reflexivity|].
  now rewrite <- E.
Qed.

(** * Blank lines and the [remove_empty_lines] option *)

(** The contrast on one text, [a], a blank line, [b], the other options
    off and the format neither of the two: the script comes out the same
    under both settings, without the blank line; the markup (with the
    stand-in for the HTML library) keeps the blank line when the option is
    off. *)
Example blank_line_contrast :
  let cfg :=
    {| backup_directory := py "backup"; clean_format := py "plain";
       remove_comments := false; remove_empty_lines := false;
       normalize_indentation := false; js_minify := false;
       optimize_css := false; dry_run := false |} in
  let text := py "a" ++ [LF; LF] ++ py "b" in
  clean_js_text cfg text = WATERMARK ++ py "a" ++ [LF] ++ py "b"
  /\ clean_css_text cfg text = WATERMARK ++ py "a" ++ [LF] ++ py "b"
  /\ clean_html_text one_string_parser strings_of cfg text
     = WATERMARK ++ py "a" ++ [LF; LF] ++ py "b"
  /\ clean_html_text one_string_parser strings_of (set_remove_empty_lines true cfg) text
     = WATERMARK ++ py "a" ++ [LF] ++ py "b".
Proof. repeat split; vm_compute; reflexivity. Qed.

(** * Running the stylesheet cleaner on its own output *)

Lemma watermark_ends_in_LF : WATERMARK = removelast WATERMARK ++ [LF].
Proof. vm_compute. reflexivity. Qed.

(** The watermark ends in a line feed, so the lines of an output are the
    seven lines of the watermark and then those of the content. *)
Lemma splitlines_watermark (b : str) :
  splitlines (WATERMARK ++ b) = watermark_lines ++ splitlines b.
Proof.
  unfold watermark_lines. rewrite watermark_ends_in_LF.
  rewrite <- app_assoc. cbn [app]. apply splitlines_app_LF.
Qed.

Lemma line_count_watermark (b : str) :
  line_count (WATERMARK ++ b) = 7 + line_count b.
Proof.
  unfold line_count. rewrite splitlines_watermark, length_app.
  reflexivity.
Qed.

Lemma watermark_stripped_trimmed :
  Forall trimmed_line watermark_stripped /\ length watermark_stripped = 6.
Proof.
  split; [|vm_compute; reflexivity].
  apply nonblank_stripped_trimmed, splitlines_no_break.
Qed.

(** [strip_lines] on an output: the six lines of the watermark that are
    not blank, stripped, and then the lines of the content that are not
    blank, stripped. *)
Lemma strip_lines_watermark (b : str) :
  strip_lines (WATERMARK ++ b)
  = join [LF] (watermark_stripped ++ nonblank_stripped (splitlines b)).
Proof.
  unfold strip_lines.
  now rewrite splitlines_watermark, nonblank_stripped_app.
Qed.

(** One character at a time: a closing brace gets a line feed behind it. *)
Lemma brace_newline_cons (c : N) (rest : str) :
  brace_newline (c :: rest)
  = if (c =? BRACE)%N then c :: LF :: brace_newline rest
    else c :: brace_newline rest.
Proof.
  unfold brace_newline. rewrite sub_cons. unfold Re.close_brace.
  destruct (c =? BRACE)%N; reflexivity.
Qed.

Lemma line_count_plain (c : N) (rest : str) :
  is_linebreak c = false ->
  line_count (c :: rest) = Nat.max 1 (line_count rest).
Proof.
  intros H. unfold line_count. rewrite splitlines_plain by exact H.
  destruct (splitlines rest); reflexivity.
Qed.

Lemma crlf_brace_newline (c : N) (rest : str) :
  crlf c (brace_newline rest) = crlf c rest.
Proof.
  unfold crlf. destruct rest as [|c' rest']; [reflexivity|].
  rewrite brace_newline_cons. now destruct (c' =? BRACE)%N.
Qed.

(** The readable format never loses a line. *)
Lemma line_count_brace_newline (u : str) :
  line_count u <= line_count (brace_newline u).
Proof.
  induction u as [|rest IH|c rest Ec E IH|c rest Ec IH] using splitlines_elim.
  - reflexivity.
  - rewrite !brace_newline_cons.
    change (CR =? BRACE)%N with false. change (LF =? BRACE)%N with false.
    cbv iota. unfold line_count in *. rewrite !splitlines_CRLF. simpl. lia.
  - rewrite brace_newline_cons.
    destruct (c =? BRACE)%N eqn:Eb.
    { apply N.eqb_eq in Eb. subst c. discriminate Ec. }
    unfold line_count in *.
    rewrite !splitlines_break by (try rewrite crlf_brace_newline; easy).
    simpl. lia.
  - rewrite brace_newline_cons. destruct (c =? BRACE)%N.
    + rewrite line_count_plain by exact Ec.
      unfold line_count in *.
      change (c :: LF :: brace_newline rest) with ([c] ++ LF :: brace_newline rest).
      rewrite splitlines_line.
      * simpl. lia.
      * unfold no_break. cbn [forallb]. now rewrite Ec.
    + rewrite !line_count_plain by exact Ec. lia.
Qed.

Lemma no_break_no_LF (l : str) :
  no_break l = true -> forallb (fun d => negb (d =? LF)%N) l = true.
Proof.
  unfold no_break. rewrite !forallb_forall. intros H c Hc.
  specialize (H c Hc). destruct (c =? LF)%N eqn:E; [|reflexivity].
  apply N.eqb_eq in E. subst c. discriminate H.
Qed.

(** A text up to the first character that can open a match is passed
    through. *)
Lemma sub_app_no_opener (m : str -> option nat) (r : str -> str) (P : N -> bool)
    (l t : str) :
  (forall c u, P c = true -> m (c :: u) = None) ->
  forallb P l = true -> Re.sub m r (l ++ t) = l ++ Re.sub m r t.
Proof.
  intros Hm. induction l as [|c l IH]; [reflexivity|].
  cbn [forallb app]. intros H. apply andb_true_iff in H as [Hc Hl].
  rewrite sub_cons, (Hm c (l ++ t) Hc). now rewrite IH.
Qed.

(** Lines that are not empty, joined by single line feeds, hold no two
    line feeds in a row for the compact format to delete. *)
Lemma replace_double_LF_join (ls : list str) :
  Forall (fun l => l <> [] /\ no_break l = true) ls ->
  replace [LF; LF] [] (join [LF] ls) = join [LF] ls.
Proof.
  unfold replace. change (scan_sub ?m ?r 0 ?s) with (Re.sub m r s).
  set (m := fun t : str => if startswith t [LF; LF] then Some (length [LF; LF]) else None).
  set (r := fun _ : str => @nil N).
  assert (Hm : forall c u, negb (c =? LF)%N = true -> m (c :: u) = None).
  { intros c u Hc. unfold m. cbn [startswith].
    apply negb_true_iff in Hc. now rewrite Hc. }
  induction 1 as [|l ls [Hne Hnb] Hls IH]; [reflexivity|].
  cbn [join]. destruct ls as [|l2 ls'].
  - apply (sub_no_opener m r _ l Hm). now apply no_break_no_LF.
  - rewrite (sub_app_no_opener m r _ l _ Hm) by now apply no_break_no_LF.
    f_equal. cbn [app]. rewrite sub_cons.
    inversion Hls as [|? ? [Hne2 Hnb2] _]; subst.
    destruct l2 as [|d l2']; [easy|].
    apply no_break_no_LF in Hnb2. cbn [forallb] in Hnb2.
    apply andb_true_iff in Hnb2 as [Hd _]. apply negb_true_iff in Hd.
    assert (m (LF :: join [LF] ((d :: l2') :: ls')) = None) as ->.
    { unfold m. cbn [join]. destruct ls'; cbn [app startswith]; now rewrite Hd, andb_false_r. }
    now rewrite IH.
Qed.

Lemma readable_not_compact (cfg : config) :
  is_readable cfg = true -> is_compact cfg = false.
Proof.
  unfold is_readable, is_compact. intros H.
  apply bool_decide_eq_true in H. rewrite H. reflexivity.
Qed.

(** What the format pass does to stripped lines: nothing, or, when the
    format is readable, the line feeds behind the braces. *)
Lemma css_format_joined (cfg : config) (ls : list str) :
  Forall trimmed_line ls ->
  css_format cfg (join [LF] ls)
  = if is_readable cfg then brace_newline (join [LF] ls) else join [LF] ls.
Proof.
  intros H. unfold css_format.
  destruct (is_readable cfg) eqn:Er.
  - now rewrite (readable_not_compact cfg Er).
  - rewrite replace_double_LF_join by now apply trimmed_lines_joinable.
    now destruct (is_compact cfg).
Qed.

Lemma line_count_css_format_joined (cfg : config) (ls : list str) :
  Forall trimmed_line ls ->
  length ls <= line_count (css_format cfg (join [LF] ls)).
Proof.
  intros H. rewrite css_format_joined by exact H.
  assert (line_count (join [LF] ls) = length ls) as E.
  { unfold line_count. now rewrite splitlines_join by now apply trimmed_lines_joinable. }
  destruct (is_readable cfg); [|lia].
  pose proof (line_count_brace_newline (join [LF] ls)). lia.
Qed.

(** ** Counting lines by line feeds *)

Lemma line_count_pos (s : str) : s <> [] -> 1 <= line_count s.
Proof.
  intros H. unfold line_count.
  destruct (splitlines s) eqn:E; [|simpl; lia].
  now apply splitlines_nil_inv in E.
Qed.

Lemma count_char_cons (c d : N) (s : str) :
  count_char c (d :: s) = (if (d =? c)%N then 1 else 0) + count_char c s.
Proof. unfold count_char. cbn [List.filter]. now destruct (d =? c)%N. Qed.

Lemma count_char_app (c : N) (s t : str) :
  count_char c (s ++ t) = count_char c s + count_char c t.
Proof. unfold count_char. now rewrite List.filter_app, length_app. Qed.

(** In a text whose only line boundaries are line feeds, the lines are
    one per line feed, and one more when the text goes on behind the last. *)
Lemma line_count_lf_only (v : str) :
  lf_only v = true ->
  line_count v = count_char LF v + (if open_end v then 1 else 0).
Proof.
  induction v as [|c rest IH]; [reflexivity|].
  unfold lf_only. cbn [forallb]. intros H.
  apply andb_true_iff in H as [Hc Hrest]. specialize (IH Hrest).
  rewrite count_char_cons. destruct (c =? LF)%N eqn:E.
  - apply N.eqb_eq in E. subst c.
    unfold line_count in *. rewrite splitlines_LF. cbn [length].
    rewrite IH. cbn [open_end]. destruct rest; reflexivity.
  - rewrite orb_false_r in Hc. apply negb_true_iff in Hc.
    rewrite line_count_plain by exact Hc. cbn [open_end].
    destruct rest as [|d r]; [now rewrite E|].
    pose proof (line_count_pos (d :: r)) as Hp.
    rewrite Nat.max_r by (apply Hp; discriminate). exact IH.
Qed.

Lemma open_end_snoc (a : str) (z : N) : open_end (a ++ [z]) = negb (z =? LF)%N.
Proof.
  induction a as [|c a IH]; [reflexivity|].
  cbn [app open_end]. destruct (a ++ [z]) eqn:E; [now destruct a|exact IH].
Qed.

(** ** The readable format, character by character *)

Lemma brace_newline_app (a b : str) :
  brace_newline (a ++ b) = brace_newline a ++ brace_newline b.
Proof.
  induction a as [|c a IH]; [reflexivity|].
  cbn [app]. rewrite !brace_newline_cons, IH.
  now destruct (c =? BRACE)%N.
Qed.

Lemma count_LF_brace_newline (v : str) :
  count_char LF (brace_newline v) = count_char LF v + count_char BRACE v.
Proof.
  induction v as [|c v IH]; [reflexivity|].
  rewrite brace_newline_cons, (count_char_cons LF c), (count_char_cons BRACE c).
  destruct (c =? BRACE)%N eqn:E.
  - apply N.eqb_eq in E. subst c.
    rewrite !count_char_cons, IH.
    change (BRACE =? LF)%N with false. change (LF =? LF)%N with true.
    cbv iota. lia.
  - rewrite count_char_cons, IH. lia.
Qed.

Lemma ink_brace_newline (v : str) : ink (brace_newline v) = ink v.
Proof.
  induction v as [|c v IH]; [reflexivity|].
  rewrite brace_newline_cons. destruct (c =? BRACE)%N.
  - rewrite !ink_cons, IH. change (is_space LF) with true. reflexivity.
  - now rewrite !ink_cons, IH.
Qed.

Lemma lf_only_brace_newline (v : str) :
  lf_only v = true -> lf_only (brace_newline v) = true.
Proof.
  unfold lf_only. induction v as [|c v IH]; [reflexivity|].
  cbn [forallb]. intros H. apply andb_true_iff in H as [Hc Hv].
  rewrite brace_newline_cons. destruct (c =? BRACE)%N; cbn [forallb];
    rewrite Hc, (IH Hv); reflexivity.
Qed.

(** Behind a text that ends in a character other than whitespace, the
    readable format leaves an open end unless that character is a brace. *)
Lemma open_end_brace_newline (v : str) (z : N) :
  is_space z = false ->
  open_end (brace_newline (v ++ [z])) = negb (z =? BRACE)%N.
Proof.
  intros Hz. rewrite brace_newline_app, brace_newline_cons.
  change (brace_newline []) with (@nil N).
  destruct (z =? BRACE)%N eqn:E.
  - change [z; LF] with ([z] ++ [LF]). rewrite app_assoc, open_end_snoc. reflexivity.
  - rewrite open_end_snoc. destruct (z =? LF)%N eqn:El; [|reflexivity].
    apply N.eqb_eq in El. subst z. discriminate Hz.
Qed.

(** ** What stripping keeps *)

Lemma count_char_ink (c : N) (v : str) :
  is_space c = false -> count_char c (ink v) = count_char c v.
Proof.
  intros Hc. induction v as [|d v IH]; [reflexivity|].
  rewrite ink_cons, (count_char_cons c d v). destruct (is_space d) eqn:Ed.
  - rewrite IH. destruct (d =? c)%N eqn:E; [|reflexivity].
    apply N.eqb_eq in E. subst d. congruence.
  - now rewrite count_char_cons, IH.
Qed.

Lemma ink_nil_lstrip (l : str) : ink l = [] -> lstrip l = [].
Proof.
  induction l as [|c l IH]; [reflexivity|].
  rewrite ink_cons. cbn [lstrip]. destruct (is_space c); [exact IH|discriminate].
Qed.

(** A line is blank exactly when it has no ink. *)
Lemma strip_nil_iff (l : str) : strip l = [] <-> ink l = [].
Proof.
  split; intros H.
  - rewrite <- ink_strip, H. reflexivity.
  - unfold strip. now rewrite (ink_nil_lstrip l H).
Qed.

Lemma ink_join (ls : list str) : ink (join [LF] ls) = concat (map ink ls).
Proof.
  induction ls as [|l ls IH]; [reflexivity|].
  cbn [join map concat]. destruct ls as [|l2 ls'].
  - cbn [map concat]. now rewrite app_nil_r.
  - rewrite ink_app. cbn [app]. rewrite ink_cons.
    change (is_space LF) with true. cbv iota. now rewrite IH.
Qed.

Lemma ink_nonblank_stripped (ls : list str) :
  concat (map ink (nonblank_stripped ls)) = concat (map ink ls).
Proof.
  unfold nonblank_stripped. induction ls as [|l ls IH]; [reflexivity|].
  cbn [List.filter map concat]. destruct (strip l) as [|d t] eqn:E.
  - apply strip_nil_iff in E. now rewrite E, IH.
  - cbn [map concat]. now rewrite E, <- E, ink_strip, IH.
Qed.

Lemma ink_splitlines (u : str) : concat (map ink (splitlines u)) = ink u.
Proof.
  induction u as [|rest IH|c rest Ec E IH|c rest Ec IH] using splitlines_elim.
  - reflexivity.
  - rewrite splitlines_CRLF. cbn [map concat]. rewrite IH. reflexivity.
  - rewrite splitlines_break by easy. cbn [map concat]. rewrite IH.
    now rewrite (ink_cons c rest), (linebreak_is_space c Ec).
  - rewrite splitlines_plain by exact Ec. rewrite (ink_cons c rest), <- IH.
    destruct (splitlines rest) as [|l ls]; cbn [map concat].
    + rewrite ink_cons. now destruct (is_space c).
    + rewrite ink_cons. now destruct (is_space c).
Qed.

(** [strip_lines] removes whitespace only. *)
Lemma ink_strip_lines (u : str) : ink (strip_lines u) = ink u.
Proof.
  unfold strip_lines.
  now rewrite ink_join, ink_nonblank_stripped, ink_splitlines.
Qed.

(** ** Lines that are not blank *)

Lemma nonblank_stripped_cons_length (l : str) (L : list str) :
  length (nonblank_stripped (l :: L))
  = (match ink l with [] => 0 | _ :: _ => 1 end) + length (nonblank_stripped L).
Proof.
  unfold nonblank_stripped. cbn [List.filter].
  destruct (strip l) as [|d t] eqn:E.
  - apply strip_nil_iff in E. now rewrite E.
  - destruct (ink l) eqn:Ei; [|reflexivity].
    apply strip_nil_iff in Ei. congruence.
Qed.

Lemma nonblank_tail_le (L : list str) :
  length (nonblank_stripped (tl L)) <= length (nonblank_stripped L).
Proof.
  destruct L as [|l L]; [reflexivity|].
  rewrite nonblank_stripped_cons_length. cbn [tl]. lia.
Qed.

Lemma nonblank_count_plain (c : N) (rest : str) :
  is_linebreak c = false ->
  nonblank_count (c :: rest)
  = (if is_space c then nonblank_count rest
     else 1 + length (nonblank_stripped (tl (splitlines rest))))
  /\ length (nonblank_stripped (tl (splitlines (c :: rest))))
     = length (nonblank_stripped (tl (splitlines rest))).
Proof.
  intros Ec. unfold nonblank_count. rewrite splitlines_plain by exact Ec.
  destruct (splitlines rest) as [|l ls].
  - rewrite nonblank_stripped_cons_length, ink_cons.
    destruct (is_space c); split; reflexivity.
  - rewrite !nonblank_stripped_cons_length, ink_cons. cbn [tl].
    destruct (is_space c); split; reflexivity || lia.
Qed.

Lemma nonblank_count_boundary (u rest : str) :
  splitlines u = [] :: splitlines rest ->
  nonblank_count u = nonblank_count rest
  /\ length (nonblank_stripped (tl (splitlines u))) = nonblank_count rest.
Proof. intros E. unfold nonblank_count. rewrite E. split; reflexivity. Qed.

(** The readable format never loses a line that is not blank. *)
Lemma nonblank_count_brace_newline (u : str) :
  nonblank_count u <= nonblank_count (brace_newline u)
  /\ length (nonblank_stripped (tl (splitlines u)))
     <= length (nonblank_stripped (tl (splitlines (brace_newline u)))).
Proof.
  induction u as [|rest IH|c rest Ec E IH|c rest Ec IH] using splitlines_elim.
  - split; reflexivity.
  - rewrite !brace_newline_cons.
    change (CR =? BRACE)%N with false. change (LF =? BRACE)%N with false.
    cbv iota.
    destruct (nonblank_count_boundary _ _ (splitlines_CRLF rest)) as [-> ->].
    destruct (nonblank_count_boundary _ _ (splitlines_CRLF (brace_newline rest)))
      as [-> ->].
    lia.
  - rewrite brace_newline_cons.
    destruct (c =? BRACE)%N eqn:Eb.
    { apply N.eqb_eq in Eb. subst c. discriminate Ec. }
    assert (crlf c (brace_newline rest) = false) as E'
      by now rewrite crlf_brace_newline.
    destruct (nonblank_count_boundary _ _ (splitlines_break c rest Ec E)) as [-> ->].
    destruct (nonblank_count_boundary _ _
                (splitlines_break c (brace_newline rest) Ec E')) as [-> ->].
    lia.
  - pose proof (nonblank_tail_le (splitlines rest)) as Ht.
    fold (nonblank_count rest) in Ht.
    destruct (nonblank_count_plain c rest Ec) as [-> ->].
    rewrite brace_newline_cons. destruct (c =? BRACE)%N eqn:Eb.
    + apply N.eqb_eq in Eb. subst c. change (is_space BRACE) with false. cbv iota.
      destruct (nonblank_count_plain BRACE (LF :: brace_newline rest) Ec) as [-> ->].
      change (is_space BRACE) with false. cbv iota.
      rewrite splitlines_LF. cbn [tl]. fold (nonblank_count (brace_newline rest)).
      lia.
    + destruct (nonblank_count_plain c (brace_newline rest) Ec) as [-> ->].
      destruct (is_space c); lia.
Qed.

(** ** The end of a stripped text *)

Lemma trimmed_line_end (l : str) :
  trimmed_line l -> exists v z, l = v ++ [z] /\ is_space z = false.
Proof.
  intros (Hne & _ & Hs).
  assert (lstrip (rev l) = rev l) as Hr.
  { pose proof (rstrip_strip l) as H. rewrite Hs in H. unfold rstrip in H.
    apply (f_equal (@rev N)) in H. now rewrite rev_involutive in H. }
  pose proof (lstrip_head (rev l)) as Hh. rewrite Hr in Hh.
  destruct (rev l) as [|z r] eqn:E.
  - apply (f_equal (@rev N)) in E. rewrite rev_involutive in E. now subst l.
  - exists (rev r), z. split; [|exact Hh].
    apply (f_equal (@rev N)) in E. now rewrite rev_involutive in E.
Qed.

Lemma trimmed_join_end (ls : list str) :
  ls <> [] -> Forall trimmed_line ls ->
  exists v z, join [LF] ls = v ++ [z] /\ is_space z = false.
Proof.
  intros Hne H. induction H as [|l ls Hl Hls IH]; [easy|].
  cbn [join]. destruct ls as [|l2 ls'].
  - now apply trimmed_line_end.
  - destruct IH as (v & z & E & Hz); [discriminate|].
    exists (l ++ [LF] ++ v), z. split; [|exact Hz].
    rewrite E. now rewrite <- !app_assoc.
Qed.

Lemma count_LF_line (l : str) : no_break l = true -> count_char LF l = 0.
Proof.
  intros H. apply no_break_no_LF in H. unfold count_char.
  induction l as [|c l IH]; [reflexivity|].
  cbn [forallb] in H. apply andb_true_iff in H as [Hc Hl].
  apply negb_true_iff in Hc. cbn [List.filter]. rewrite Hc. now apply IH.
Qed.

Lemma count_LF_join (ls : list str) :
  Forall trimmed_line ls -> count_char LF (join [LF] ls) = length ls - 1.
Proof.
  induction 1 as [|l ls (_ & Hnb & _) Hls IH]; [reflexivity|].
  cbn [join]. destruct ls as [|l2 ls'].
  - rewrite count_LF_line by exact Hnb. reflexivity.
  - rewrite count_char_app, count_LF_line by exact Hnb.
    cbn [app]. rewrite count_char_cons, IH.
    change (LF =? LF)%N with true. cbn [length]. lia.
Qed.

Lemma lf_only_line (l : str) : no_break l = true -> lf_only l = true.
Proof.
  unfold no_break, lf_only. rewrite !forallb_forall. intros H c Hc.
  now rewrite (H c Hc).
Qed.

Lemma lf_only_join (ls : list str) :
  Forall trimmed_line ls -> lf_only (join [LF] ls) = true.
Proof.
  induction 1 as [|l ls (_ & Hnb & _) Hls IH]; [reflexivity|].
  cbn [join]. destruct ls as [|l2 ls'].
  - now apply lf_only_line.
  - unfold lf_only in *. rewrite forallb_app. cbn [app forallb].
    rewrite IH. change (LF =? LF)%N with true. rewrite orb_true_r.
    fold (lf_only l). now rewrite lf_only_line.
Qed.

(** The lines of a stripped text in readable format: one per line, one
    per brace, less one when the text ends in a brace. *)
Lemma line_count_readable_joined (ls : list str) (v : str) (z : N) :
  Forall trimmed_line ls ->
  join [LF] ls = v ++ [z] -> is_space z = false ->
  line_count (brace_newline (join [LF] ls))
  = (length ls - 1) + count_char BRACE (ink (join [LF] ls))
    + (if (z =? BRACE)%N then 0 else 1).
Proof.
  intros H E Hz.
  assert (open_end (brace_newline (join [LF] ls)) = negb (z =? BRACE)%N) as Ho
    by (rewrite E; now apply open_end_brace_newline).
  rewrite line_count_lf_only by now apply lf_only_brace_newline, lf_only_join.
  rewrite count_LF_brace_newline, count_LF_join by exact H.
  rewrite count_char_ink by reflexivity.
  rewrite Ho. now destruct (z =? BRACE)%N.
Qed.

(** ** The second run *)

Lemma css_rerun_input (cfg : config) (text : str) :
  remove_comments cfg = false ->
  css_optimize cfg (css_remove_comments cfg text) = text.
Proof.
  intros H. unfold css_optimize, css_remove_comments. rewrite H.
  now destruct (optimize_css cfg).
Qed.

(** The content of an output: stripped lines, joined, in readable format
    with the line feeds behind the braces. *)
Lemma css_body_shape (cfg : config) (css_code : str) :
  exists ls,
    Forall trimmed_line ls
    /\ css_body cfg css_code
       = if is_readable cfg then brace_newline (join [LF] ls) else join [LF] ls.
Proof.
  exists (nonblank_stripped (splitlines (css_optimize cfg (css_remove_comments cfg css_code)))).
  assert (Forall trimmed_line
            (nonblank_stripped
               (splitlines (css_optimize cfg (css_remove_comments cfg css_code))))) as H
    by apply nonblank_stripped_trimmed, splitlines_no_break.
  split; [exact H|]. unfold css_body, strip_lines. now apply css_format_joined.
Qed.

(** A second run without comment removal, on an output: the watermark,
    then the format pass over the old watermark's six lines and the lines
    of the old content that are not blank. *)
Lemma css_rerun (cfg : config) (body : str) :
  remove_comments cfg = false ->
  clean_css_text cfg (WATERMARK ++ body)
  = WATERMARK
    ++ css_format cfg
         (join [LF] (watermark_stripped ++ nonblank_stripped (splitlines body))).
Proof.
  intros H. unfold clean_css_text, add_watermark, css_body.
  now rewrite css_rerun_input, strip_lines_watermark.
Qed.

Lemma watermark_has_no_brace : count_char BRACE (ink WATERMARK) = 0.
Proof. vm_compute. reflexivity. Qed.

Lemma rerun_lines_trimmed (body : str) :
  Forall trimmed_line (watermark_stripped ++ nonblank_stripped (splitlines body)).
Proof.
  apply Forall_app. split.
  - apply watermark_stripped_trimmed.
  - apply nonblank_stripped_trimmed, splitlines_no_break.
Qed.

(** What a change of format between the two runs does, which a re-run
    does not make: a readable first run leaves a blank line behind every
    rule, and a compact second run strips them; with eight rules the
    second output is shorter than the first, its fresh watermark counted.
    The condition on the formats below cannot go. *)
Lemma readable_then_compact_loses_lines :
  remove_comments compact_rerun_config = false
  /\ optimize_css compact_rerun_config = false
  /\ line_count (clean_css_text readable_config eight_rules) = 22
  /\ line_count (clean_css_text compact_rerun_config
                   (clean_css_text readable_config eight_rules)) = 21
  /\ line_count (clean_css_text compact_rerun_config
                   (clean_css_text readable_config eight_rules))
     < line_count (clean_css_text readable_config eight_rules).
Proof.
  assert (line_count (clean_css_text readable_config eight_rules) = 22) as E1
    by (vm_compute; reflexivity).
  assert (line_count (clean_css_text compact_rerun_config
                        (clean_css_text readable_config eight_rules)) = 21) as E2
    by (vm_compute; reflexivity).
  repeat split; try reflexivity; try assumption.
  rewrite E1, E2. lia.
Qed.

(** C9. Running [clean_css] without comment removal (the optimizer on or
    off) on an output of [clean_css] does not lose lines when the second
    run has the format of the first, as a re-run has; nor when the format
    changes, unless from readable to another. The second output has at
    least six lines more than the first: its own watermark of seven lines,
    less the blank first line of the old one, which is all the duplicated
    watermark does. When neither run is in readable format, the lines of
    the second output are the watermark, the old watermark's six lines
    that are not blank, and every line of the old content as it was. *)
Theorem css_rerun_keeps_lines (cfg1 cfg2 : config) (css_code : str) :
  remove_comments cfg2 = false ->
  clean_format cfg2 = clean_format cfg1
  \/ is_readable cfg1 = false \/ is_readable cfg2 = true ->
  let out1 := clean_css_text cfg1 css_code in
  let out2 := clean_css_text cfg2 out1 in
  line_count out1 + 6 <= line_count out2
  /\ (is_readable cfg1 = false -> is_readable cfg2 = false ->
      splitlines out2
      = watermark_lines ++ watermark_stripped ++ splitlines (css_body cfg1 css_code)).
Proof.
  intros Hrc Hsame out1 out2. subst out2 out1.
  assert (is_readable cfg1 = false \/ is_readable cfg2 = true) as Hfmt.
  { destruct Hsame as [E|H]; [|exact H]. unfold is_readable. rewrite E.
    destruct (bool_decide (clean_format cfg1 = py "readable")); [now right|now left]. }
  clear Hsame.
  change (clean_css_text cfg1 css_code) with (WATERMARK ++ css_body cfg1 css_code).
  rewrite css_rerun by exact Hrc.
  destruct (css_body_shape cfg1 css_code) as (ls & Hls & Hb).
  pose proof (rerun_lines_trimmed (css_body cfg1 css_code)) as HL2.
  pose proof (proj2 watermark_stripped_trimmed) as Hwm.
  assert (Hjoin : forall L, Forall trimmed_line L ->
                            splitlines (join [LF] L) = L)
    by (intros L HL; now apply splitlines_join, trimmed_lines_joinable).
  rewrite !line_count_watermark.
  destruct (is_readable cfg1) eqn:E1.
  - (* both runs readable *)
    destruct Hfmt as [Hfmt|E2]; [discriminate|]. split; [|discriminate].
    rewrite css_format_joined, E2 by exact HL2. rewrite Hb in *.
    destruct ls as [|l ls'].
    + change (brace_newline (join [LF] [])) with (@nil N) in *.
      change (line_count []) with 0.
      pose proof (line_count_brace_newline
                    (join [LF] (watermark_stripped ++ nonblank_stripped (splitlines [])))) as Hm.
      unfold line_count at 1 in Hm. rewrite Hjoin in Hm by exact HL2.
      rewrite length_app, Hwm in Hm. lia.
    + destruct (trimmed_join_end (l :: ls')) as (v & z & Ev & Hz);
        [discriminate|exact Hls|].
      set (t := join [LF] (l :: ls')) in *.
      set (NB := nonblank_stripped (splitlines (brace_newline t))) in *.
      assert (watermark_stripped ++ NB <> []) as Hne.
      { intros H. apply (f_equal (@length _)) in H.
        rewrite length_app, Hwm in H. discriminate H. }
      destruct (trimmed_join_end _ Hne HL2) as (v2 & z2 & Ev2 & Hz2).
      assert (ink (join [LF] (watermark_stripped ++ NB)) = ink WATERMARK ++ ink t) as Hink.
      { unfold NB. rewrite <- strip_lines_watermark.
        now rewrite ink_strip_lines, ink_app, ink_brace_newline. }
      assert (forall a c, is_space c = false -> ink (a ++ [c]) = ink a ++ [c]) as Hsnoc.
      { intros a c Hc. now rewrite ink_app, ink_cons, Hc. }
      assert (z2 = z) as ->.
      { rewrite Ev2, Ev, !Hsnoc, app_assoc in Hink by assumption.
        now apply app_inj_tail in Hink. }
      pose proof (line_count_readable_joined (l :: ls') v z Hls Ev Hz) as H1.
      fold t in H1. rewrite H1.
      rewrite (line_count_readable_joined _ v2 z HL2 Ev2 Hz2).
      rewrite Hink, count_char_app, watermark_has_no_brace.
      assert (length (l :: ls') <= length NB) as Hlen.
      { pose proof (proj1 (nonblank_count_brace_newline t)) as Hm.
        unfold nonblank_count in Hm. fold NB in Hm. unfold t in Hm at 1.
        now rewrite (Hjoin _ Hls), (nonblank_stripped_fixed _ Hls) in Hm. }
      rewrite length_app, Hwm. cbn [length] in *. lia.
  - (* the first run not readable *)
    rewrite Hb in *.
    rewrite (Hjoin _ Hls), (nonblank_stripped_fixed _ Hls) in *.
    split.
    + pose proof (line_count_css_format_joined cfg2 _ HL2) as Hm.
      rewrite length_app, Hwm in Hm.
      unfold line_count at 1. rewrite (Hjoin _ Hls). lia.
    + intros _ E2. rewrite css_format_joined, E2 by exact HL2.
      now rewrite splitlines_watermark, (Hjoin _ HL2).
Qed.

(** C9 at two compact runs over eight rules. *)
Lemma css_rerun_keeps_lines_witness :
  let out1 := clean_css_text initial_config eight_rules in
  let out2 := clean_css_text compact_rerun_config out1 in
  line_count out1 + 6 <= line_count out2
  /\ (is_readable initial_config = false -> is_readable compact_rerun_config = false ->
      splitlines out2
      = watermark_lines ++ watermark_stripped ++ splitlines (css_body initial_config eight_rules)).
Proof.
  apply (css_rerun_keeps_lines initial_config compact_rerun_config eight_rules).
  - reflexivity.
  - left. reflexivity.
Defined.

(** * Trimming the lines and dropping the blank ones *)

Lemma forallb_firstn_span (f : N -> bool) (s : str) :
  forallb f (firstn (span f s) s) = true.
Proof.
  induction s as [|c s IH]; [reflexivity|]. cbn [span].
  destruct (f c) eqn:E; [|reflexivity]. cbn [firstn forallb]. now rewrite E.
Qed.








(** * Further properties: one file *)


Lemma clean_file_cleaner (html_parser : str -> Soup.soup) (prettify : Soup.soup -> str)
    (root file : str) :
  recognised file = true ->
  clean_file html_parser prettify root file
  = cleaner (transformation_of html_parser prettify file)
      (dry_message_of file) (done_message_of file) (os_path_join root file).
Proof.
  unfold recognised, clean_file, transformation_of, dry_message_of, done_message_of.
  destruct (endswith file (py ".html")); [reflexivity|].
  destruct (endswith file (py ".js")); [reflexivity|].
  destruct (endswith file (py ".css")); [reflexivity|discriminate].
Qed.




(** * Further properties: what stops a run *)

(** A recognised name with nothing behind it, neither a file nor a
    directory, and the backup directory of the module: the copy of line 44
    raises before the file is opened. The backup directory has been made;
    no file has changed and nothing is logged or printed. *)
Theorem missing_file_raises
    (html_parser : str -> Soup.soup) (prettify : Soup.soup -> str)
    (w : world) (root file : str) :
  let cfg := DEFAULT_CONFIG w in
  let p := os_path_join root file in
  recognised file = true ->
  files w !! p = None ->
  p ∉ dirs w ->
  files w !! backup_directory cfg = None ->
  backup_directory cfg = py "backup" ->
  exists w',
    clean_file html_parser prettify root file w = Raised (FileNotFoundError p) w'
    /\ files w' = files w
    /\ stdout w' = stdout w
    /\ backup_directory cfg ∈ dirs w'
    /\ DEFAULT_CONFIG w' = cfg.
Proof.
  intros cfg p Hrec Hp _ Hdir _.
  rewrite (clean_file_cleaner html_parser prettify root file Hrec). fold p.
  unfold cleaner, create_backup, bind, get_config, os_makedirs, shutil_copy2.
  fold cfg. rewrite Hdir. cbn [files with_dirs]. rewrite Hp.
  eexists. split; [reflexivity|]. repeat split.
  cbn [dirs with_dirs]. apply elem_of_union_l. now apply elem_of_singleton_2.
Qed.

Lemma missing_file_raises_witness :
  exists w',
    clean_file one_string_parser strings_of (py "site") (py "gone.css")
      (one_script_world initial_config)
    = Raised (FileNotFoundError (py "site/gone.css")) w'
    /\ files w' = files (one_script_world initial_config)
    /\ stdout w' = stdout (one_script_world initial_config)
    /\ py "backup" ∈ dirs w'
    /\ DEFAULT_CONFIG w' = initial_config.
Proof.
  apply (missing_file_raises one_string_parser strings_of
           (one_script_world initial_config) (py "site") (py "gone.css")).
  - reflexivity.
  - vm_compute. reflexivity.
  - cbn [dirs one_script_world]. intros H. apply elem_of_singleton_1 in H.
    vm_compute in H. discriminate.
  - vm_compute. reflexivity.
  - reflexivity.
Defined.

(** A file that lies at its own backup path, as every file does when the
    backup directory (that of the module) is itself cleaned: the copy is
    refused, so the file is neither read nor written and nothing is logged
    or printed. *)
Theorem file_at_its_backup_path_raises
    (html_parser : str -> Soup.soup) (prettify : Soup.soup -> str)
    (w : world) (root file c : str) :
  let cfg := DEFAULT_CONFIG w in
  let p := os_path_join root file in
  recognised file = true ->
  files w !! p = Some c ->
  files w !! backup_directory cfg = None ->
  p = backup_path_of cfg p ->
  backup_directory cfg = py "backup" ->
  exists w',
    clean_file html_parser prettify root file w = Raised (SameFileError p p) w'
    /\ files w' = files w
    /\ stdout w' = stdout w
    /\ DEFAULT_CONFIG w' = cfg.
Proof.
  intros cfg p Hrec Hp Hdir Hsame _.
  rewrite (clean_file_cleaner html_parser prettify root file Hrec). fold p.
  unfold cleaner, create_backup, bind, get_config, os_makedirs, shutil_copy2.
  fold cfg. rewrite Hdir. cbn [files with_dirs]. rewrite Hp.
  fold (backup_path_of cfg p). rewrite <- Hsame.
  rewrite bool_decide_true by reflexivity.
  eexists. split; [reflexivity|]. now repeat split.
Qed.

Lemma file_at_its_backup_path_raises_witness :
  exists w',
    clean_file one_string_parser strings_of (py "backup") (py "app.js") backup_only_world
    = Raised (SameFileError (py "backup/app.js") (py "backup/app.js")) w'
    /\ files w' = files backup_only_world
    /\ stdout w' = stdout backup_only_world
    /\ DEFAULT_CONFIG w' = initial_config.
Proof.
  apply (file_at_its_backup_path_raises one_string_parser strings_of
           backup_only_world (py "backup") (py "app.js") (py "var a;")).
  - reflexivity.
  - vm_compute. reflexivity.
  - vm_compute. reflexivity.
  - vm_compute. reflexivity.
  - reflexivity.
Defined.

(** The name of the backup directory taken by a regular file:
    [os.makedirs] refuses it, in [setup_backup_directory] and in the backup
    of every recognised file, and the store stays as it was. *)
Theorem backup_directory_taken_raises
    (html_parser : str -> Soup.soup) (prettify : Soup.soup -> str)
    (w : world) (root file content : str) :
  let cfg := DEFAULT_CONFIG w in
  files w !! backup_directory cfg = Some content ->
  recognised file = true ->
  setup_backup_directory w = Raised (FileExistsError (backup_directory cfg)) w
  /\ clean_file html_parser prettify root file w
     = Raised (FileExistsError (backup_directory cfg)) w.
Proof.
  intros cfg Hdir Hrec. split.
  - unfold setup_backup_directory, bind, get_config, os_makedirs. fold cfg.
    now rewrite Hdir.
  - rewrite (clean_file_cleaner html_parser prettify root file Hrec).
    unfold cleaner, create_backup, bind, get_config, os_makedirs. fold cfg.
    now rewrite Hdir.
Qed.

Lemma backup_directory_taken_raises_witness :
  setup_backup_directory backup_taken_world
  = Raised (FileExistsError (py "backup")) backup_taken_world
  /\ clean_file one_string_parser strings_of (py "site") (py "app.js") backup_taken_world
     = Raised (FileExistsError (py "backup")) backup_taken_world.
Proof.
  apply (backup_directory_taken_raises one_string_parser strings_of
           backup_taken_world (py "site") (py "app.js") (py "not a directory")).
  - vm_compute. reflexivity.
  - reflexivity.
Defined.

(** * Further properties: the walk *)

Lemma for_each_app {A} (body : A -> M unit) (xs ys : list A) (w : world) :
  for_each body (xs ++ ys) w = (for_each body xs ;; for_each body ys) w.
Proof.
  revert w. induction xs as [|x xs IH]; intros w; [reflexivity|].
  cbn [for_each app]. unfold bind.
  destruct (body x w) as [[] w'|e w']; [|reflexivity].
  rewrite IH. reflexivity.
Qed.

Lemma clean_directory_found (html_parser : str -> Soup.soup) (prettify : Soup.soup -> str)
    (directory fmt : str) (walk : list (str * list str * list str)) (w : world) :
  directory ∈ dirs w \/ is_Some (files w !! directory) ->
  clean_directory html_parser prettify directory fmt walk w
  = for_each (visit html_parser prettify) walk
      (with_config (set_clean_format fmt (DEFAULT_CONFIG w)) w).
Proof.
  intros H. unfold clean_directory, bind, update_config, os_path_exists.
  cbn [dirs files with_config].
  destruct H as [H|H].
  - now rewrite (bool_decide_true _ H).
  - rewrite (bool_decide_true (is_Some _) H). now rewrite orb_true_r.
Qed.

(** No cleaner catches an exception, and neither does the walk: when a
    file raises, the run ends there with that exception and that store.
    The files behind it in its directory and the directories behind that
    one are never visited, whatever they are. *)
Theorem walk_stops_at_first_error
    (html_parser : str -> Soup.soup) (prettify : Soup.soup -> str)
    (directory fmt root file : str) (subdirs earlier later : list str)
    (before after : list (str * list str * list str))
    (w w1 w2 : world) (e : exn) :
  directory ∈ dirs w \/ is_Some (files w !! directory) ->
  for_each (visit html_parser prettify) (before ++ [(root, subdirs, earlier)])
    (with_config (set_clean_format fmt (DEFAULT_CONFIG w)) w) = Returned tt w1 ->
  clean_file html_parser prettify root file w1 = Raised e w2 ->
  clean_directory html_parser prettify directory fmt
    (before ++ (root, subdirs, earlier ++ file :: later) :: after) w
  = Raised e w2.
Proof.
  intros Hdir Hrun Hfile.
  rewrite clean_directory_found by exact Hdir.
  rewrite for_each_app in *. unfold bind in *.
  destruct (for_each (visit html_parser prettify) before _) as [[] wa|e' wa];
    [|discriminate].
  cbn [for_each] in *. unfold bind in *.
  unfold visit in *. cbn [fst snd] in *.
  rewrite for_each_app. unfold bind.
  destruct (for_each (clean_file html_parser prettify root) earlier wa) as [[] wb|e' wb];
    [|discriminate].
  cbn [for_each]. unfold bind.
  replace wb with w1 by (unfold ret in Hrun; congruence).
  now rewrite Hfile.
Qed.

Lemma walk_stops_at_first_error_witness :
  clean_directory one_string_parser strings_of (py "site") (py "compact")
    ([] ++ (py "site", [], [] ++ py "gone.js" :: [py "app.js"]) :: []) 
    (one_script_world initial_config)
  = Raised (FileNotFoundError (py "site/gone.js"))
      (with_dirs ({[py "backup"]} ∪ dirs (one_script_world initial_config))
         (one_script_world initial_config)).
Proof.
  apply (walk_stops_at_first_error one_string_parser strings_of
           (py "site") (py "compact") (py "site") (py "gone.js") [] [] [py "app.js"] [] []
           (one_script_world initial_config) (one_script_world initial_config)).
  - left. cbn [dirs one_script_world]. now apply elem_of_singleton_2.
  - reflexivity.
  - vm_compute. reflexivity.
Defined.



(** * Further properties: the whole run *)






(** The four ways a cleaner ends. *)
Lemma cleaner_outcome (transform : config -> str -> str) (dm done : str)
    (p : str) (w : world) :
  let cfg := DEFAULT_CONFIG w in
  let made := with_dirs ({[backup_directory cfg]} ∪ dirs w) w in
  p <> LOG_FILE_PATH ->
  cleaner transform dm done p w
  = match files w !! backup_directory cfg with
    | Some _ => Raised (FileExistsError (backup_directory cfg)) w
    | None =>
        match files w !! p with
        | None => Raised (FileNotFoundError p) made
        | Some c =>
            if bool_decide (p = backup_path_of cfg p)
            then Raised (SameFileError p (backup_path_of cfg p)) made
            else Returned tt (after_clean transform dm done p c w)
        end
    end.
Proof.
  intros cfg made Hlog.
  destruct (files w !! backup_directory cfg) as [x|] eqn:Hdir.
  { unfold cleaner, create_backup, bind, get_config, os_makedirs. fold cfg.
    now rewrite Hdir. }
  destruct (files w !! p) as [c|] eqn:Hp.
  - case_bool_decide as Hsame.
    + unfold cleaner, create_backup, bind, get_config, os_makedirs, shutil_copy2.
      fold cfg. rewrite Hdir. cbn [files with_dirs]. rewrite Hp.
      fold (backup_path_of cfg p). now rewrite bool_decide_true.
    + now apply cleaner_run.
  - unfold cleaner, create_backup, bind, get_config, os_makedirs, shutil_copy2.
    fold cfg. rewrite Hdir. cbn [files with_dirs]. now rewrite Hp.
Qed.



Lemma clean_file_skip (html_parser : str -> Soup.soup) (prettify : Soup.soup -> str)
    (root file : str) :
  recognised file = false -> clean_file html_parser prettify root file = ret tt.
Proof.
  unfold recognised, clean_file. intros H.
  apply orb_false_iff in H as [H Hcss]. apply orb_false_iff in H as [Hhtml Hjs].
  now rewrite Hhtml, Hjs, Hcss.
Qed.


Section Keeps.

Variable R : world -> world -> Prop.
Hypothesis R_refl : forall w, R w w.
Hypothesis R_trans : forall a b c, R a b -> R b c -> R a c.

Lemma for_each_keeps {A} (body : A -> M unit) :
  (forall x w, R w (world_of (body x w))) ->
  forall xs w, R w (world_of (for_each body xs w)).
Proof.
  intros H xs. induction xs as [|x xs IH]; intros w; [apply R_refl|].
  cbn [for_each]. unfold bind. specialize (H x w).
  destruct (body x w) as [[] w'|e w']; cbn [world_of] in *.
  - apply (R_trans _ w'); [exact H|apply IH].
  - exact H.
Qed.

Lemma clean_directory_keeps (html_parser : str -> Soup.soup) (prettify : Soup.soup -> str)
    (directory fmt : str) (walk : list (str * list str * list str)) (w : world) :
  (forall root file w, R w (world_of (clean_file html_parser prettify root file w))) ->
  (forall message w, R w (logged message w)) ->
  R w (with_config (set_clean_format fmt (DEFAULT_CONFIG w)) w) ->
  R w (world_of (clean_directory html_parser prettify directory fmt walk w)).
Proof.
  intros Hfile Hlog Hfmt. unfold clean_directory, bind, update_config, os_path_exists.
  cbn beta iota.
  match goal with |- context [negb ?b] => destruct b end; cbn [negb].
  - apply (R_trans _ _ _ Hfmt).
    apply for_each_keeps. intros entry w1. apply for_each_keeps. intros file w2.
    apply Hfile.
  - rewrite log_message_run. cbn [world_of].
    apply (R_trans _ _ _ Hfmt). apply Hlog.
Qed.

End Keeps.



Lemma basename_no_slash (path : str) :
  forallb (fun c => negb (c =? SLASH)%N) (os_path_basename path) = true.
Proof. unfold os_path_basename. rewrite forallb_rev. apply forallb_firstn_span. Qed.

Lemma no_slash_not_absolute (b : str) :
  forallb (fun c => negb (c =? SLASH)%N) b = true -> startswith b (py "/") = false.
Proof.
  change (py "/") with [SLASH]. destruct b as [|c b]; [reflexivity|].
  cbn [forallb startswith]. intros H. apply andb_true_iff in H as [H _].
  apply negb_true_iff in H. now rewrite H.
Qed.

Lemma startswith_join (a b : str) :
  startswith b (py "/") = false -> startswith (os_path_join a b) a = true.
Proof.
  intros H. unfold os_path_join. rewrite H.
  destruct (match a with [] => true | _ :: _ => endswith a (py "/") end);
    apply startswith_app, startswith_refl.
Qed.

Lemma backup_path_prefix (cfg : config) (path : str) :
  startswith (backup_path_of cfg path) (backup_directory cfg) = true.
Proof.
  apply startswith_join, no_slash_not_absolute, basename_no_slash.
Qed.

Lemma dry_keeps_refl (q bd : str) (w : world) : dry_keeps q bd w w.
Proof. now repeat split. Qed.

Lemma dry_keeps_trans (q bd : str) (a b c : world) :
  dry_keeps q bd a b -> dry_keeps q bd b c -> dry_keeps q bd a c.
Proof.
  intros (D1 & B1 & F1) (D2 & B2 & F2). repeat split; try congruence.
  intros Hd Hb. rewrite F2 by congruence. now apply F1.
Qed.

Lemma after_clean_config (transform : config -> str -> str) (dm done : str)
    (w : world) (p c : str) :
  DEFAULT_CONFIG (after_clean transform dm done p c w) = DEFAULT_CONFIG w.
Proof. unfold after_clean. now destruct (dry_run (DEFAULT_CONFIG w)). Qed.

Lemma clean_file_dry_keeps (html_parser : str -> Soup.soup) (prettify : Soup.soup -> str)
    (q bd root file : str) (w : world) :
  q <> LOG_FILE_PATH -> startswith q bd = false ->
  dry_keeps q bd w (world_of (clean_file html_parser prettify root file w)).
Proof.
  intros Hq Hbd.
  destruct (recognised file) eqn:Hrec.
  - rewrite clean_file_cleaner by exact Hrec.
    rewrite cleaner_outcome by now apply recognised_path_not_log.
    destruct (files w !! backup_directory (DEFAULT_CONFIG w)); [apply dry_keeps_refl|].
    destruct (files w !! os_path_join root file) as [c|]; [|now repeat split].
    case_bool_decide; [now repeat split|]. cbn [world_of].
    unfold dry_keeps. rewrite after_clean_config. repeat split.
    intros Hdry Hb. apply files_after_clean_dry; [exact Hdry|exact Hq|].
    intros ->. rewrite <- Hb, backup_path_prefix in Hbd. discriminate.
  - rewrite clean_file_skip by exact Hrec. apply dry_keeps_refl.
Qed.

Lemma clean_directory_dry_keeps (html_parser : str -> Soup.soup) (prettify : Soup.soup -> str)
    (directory fmt : str) (walk : list (str * list str * list str))
    (w : world) (q bd : str) :
  q <> LOG_FILE_PATH -> startswith q bd = false ->
  dry_keeps q bd w (world_of (clean_directory html_parser prettify directory fmt walk w)).
Proof.
  intros Hq Hbd.
  apply (clean_directory_keeps (dry_keeps q bd) (dry_keeps_refl _ _) (dry_keeps_trans _ _)).
  - intros root file w1. now apply clean_file_dry_keeps.
  - intros message w1. repeat split. intros _ _. now apply files_logged.
  - now repeat split.
Qed.

(** A dry run over a whole walk, however it ends: a path that is not the
    log and does not begin with the name of the backup directory holds
    what it held. *)
Theorem dry_run_walk_keeps_every_file
    (html_parser : str -> Soup.soup) (prettify : Soup.soup -> str)
    (directory fmt : str) (walk : list (str * list str * list str))
    (w : world) (q : str) :
  dry_run (DEFAULT_CONFIG w) = true ->
  q <> LOG_FILE_PATH ->
  startswith q (backup_directory (DEFAULT_CONFIG w)) = false ->
  files (world_of (clean_directory html_parser prettify directory fmt walk w)) !! q
  = files w !! q.
Proof.
  intros Hdry Hq Hbd.
  destruct (clean_directory_dry_keeps html_parser prettify directory fmt walk w q
              (backup_directory (DEFAULT_CONFIG w)) Hq Hbd) as (_ & _ & H).
  now apply H.
Qed.

Lemma dry_run_walk_keeps_every_file_witness :
  files (world_of (clean_directory one_string_parser strings_of (py "site") (py "compact")
                     [(py "site", [], [py "app.js"; py "gone.js"])]
                     (one_script_world (set_dry_run true initial_config))))
    !! py "site/app.js"
  = files (one_script_world (set_dry_run true initial_config)) !! py "site/app.js".
Proof.
  apply (dry_run_walk_keeps_every_file one_string_parser strings_of (py "site") (py "compact")
           [(py "site", [], [py "app.js"; py "gone.js"])]
           (one_script_world (set_dry_run true initial_config)) (py "site/app.js")).
  - reflexivity.
  - vm_compute. discriminate.
  - reflexivity.
Defined.

(** The write of line 167 stays: however the call ends, the dictionary is
    the one it was given with the format replaced, for the code behind the
    call too; no cleaner writes to it. *)
Theorem clean_directory_leaves_its_format
    (html_parser : str -> Soup.soup) (prettify : Soup.soup -> str)
    (directory fmt : str) (walk : list (str * list str * list str)) (w : world) :
  DEFAULT_CONFIG (world_of (clean_directory html_parser prettify directory fmt walk w))
  = set_clean_format fmt (DEFAULT_CONFIG w).
Proof.
  set (R := fun a b : world => DEFAULT_CONFIG b = DEFAULT_CONFIG a).
  assert (forall a, R a a) as R_refl by reflexivity.
  assert (forall a b c, R a b -> R b c -> R a c) as R_trans by (unfold R; congruence).
  assert (forall root file a, R a (world_of (clean_file html_parser prettify root file a)))
    as Hfile.
  { intros root file a. unfold R. destruct (recognised file) eqn:Hrec.
    - rewrite clean_file_cleaner by exact Hrec.
      rewrite cleaner_outcome by now apply recognised_path_not_log.
      destruct (files a !! backup_directory (DEFAULT_CONFIG a)); [reflexivity|].
      destruct (files a !! os_path_join root file); [|reflexivity].
      case_bool_decide; [reflexivity|]. apply after_clean_config.
    - now rewrite clean_file_skip. }
  unfold clean_directory, bind, update_config, os_path_exists. cbn beta iota.
  match goal with |- context [negb ?b] => destruct b end; cbn [negb].
  - apply (for_each_keeps R R_refl R_trans). intros entry w1.
    apply (for_each_keeps R R_refl R_trans). intros file w2. apply Hfile.
  - reflexivity.
Qed.











(** * Further properties: the prompts *)

Lemma only_printed_refl (w : world) : only_printed w w.
Proof. repeat split. exists []. now rewrite app_nil_r. Qed.

Lemma only_printed_trans (a b c : world) :
  only_printed a b -> only_printed b c -> only_printed a c.
Proof.
  intros (F1 & D1 & C1 & l1 & S1) (F2 & D2 & C2 & l2 & S2).
  repeat split; try congruence. exists (l1 ++ l2). now rewrite S2, S1, app_assoc.
Qed.

Lemma only_printed_line (line : str) (w : world) :
  only_printed w (with_stdout (stdout w ++ [line]) w).
Proof. repeat split. now eexists. Qed.

Section MainFacts.

Variable html_parser : str -> Soup.soup.
Variable prettify : Soup.soup -> str.
Variable lower : str -> str.
Variable getcwd : str.
Variable os_walk : str -> list (str * list str * list str).

Lemma input_reached (prompt : str) (answers : list str)
    (k : str -> list str -> world -> ended) (w : world) :
  (forall answer rest w', reached html_parser prettify os_walk w' (k answer rest w')) ->
  reached html_parser prettify os_walk w (input prompt answers k w).
Proof.
  intros H. unfold input. destruct answers as [|answer rest].
  - apply (Early _ _ _ _ _ (with_stdout (stdout w ++ [prompt]) w)); [now left|].
    apply only_printed_line.
  - destruct (H answer rest (with_stdout (stdout w ++ [prompt]) w))
      as [w' Hr Hp|d f b1 b2 b3 b4 b5 b6 w' Hp Hr].
    + apply (Early _ _ _ _ _ w'); [exact Hr|].
      eapply only_printed_trans; [apply only_printed_line|exact Hp].
    + apply (Late _ _ _ _ _ d f b1 b2 b3 b4 b5 b6 w'); [|exact Hr].
      eapply only_printed_trans; [apply only_printed_line|exact Hp].
Qed.

Lemma main_options_reached (directory fmt : str) (answers : list str) (w : world) :
  reached html_parser prettify os_walk w
    (main_options html_parser prettify lower os_walk directory fmt answers w).
Proof.
  unfold main_options.
  do 6 (apply input_reached; intros ? ? ?).
  eapply Late; [apply only_printed_refl|reflexivity].
Qed.

Lemma main_format_reached (directory : str) (answers : list str) (w : world) :
  reached html_parser prettify os_walk w
    (main_format html_parser prettify lower os_walk directory answers w).
Proof.
  unfold main_format. apply input_reached. intros answer rest w'.
  cbv zeta. case_bool_decide; [apply main_options_reached|].
  case_bool_decide; [apply main_options_reached|].
  apply (Early _ _ _ _ _ (with_stdout (stdout w' ++ [py "Invalid format choice!"]) w'));
    [now right|apply only_printed_line].
Qed.

Lemma main_reached (answers : list str) (w : world) :
  reached html_parser prettify os_walk w
    (main html_parser prettify lower getcwd os_walk answers w).
Proof.
  unfold main, print.
  set (w0 := with_stdout _ w).
  assert (only_printed w w0) as H0 by apply only_printed_line.
  match goal with |- reached _ _ _ _ ?r =>
    assert (reached html_parser prettify os_walk w0 r) as H end.
  { apply input_reached. intros action rest w'. cbv zeta.
    case_bool_decide; [apply main_format_reached|].
    case_bool_decide.
    - apply input_reached. intros d rest' w''. apply main_format_reached.
    - apply (Early _ _ _ _ _ (with_stdout (stdout w' ++ [py "Invalid action!"]) w'));
        [now right|apply only_printed_line]. }
  destruct H as [w' Hr Hp|d f b1 b2 b3 b4 b5 b6 w' Hp Hr].
  - apply (Early _ _ _ _ _ w'); [exact Hr|]. now apply (only_printed_trans _ w0).
  - apply (Late _ _ _ _ _ d f b1 b2 b3 b4 b5 b6 w'); [|exact Hr].
    now apply (only_printed_trans _ w0).
Qed.

(** The store [main_run] hands to [setup_backup_directory]. *)
Lemma main_run_updates (directory fmt : str) (b1 b2 b3 b4 b5 b6 : bool) (w : world) :
  exists cfg,
    dry_run cfg = b6
    /\ backup_directory cfg = backup_directory (DEFAULT_CONFIG w)
    /\ main_run html_parser prettify os_walk directory fmt b1 b2 b3 b4 b5 b6 w
       = (setup_backup_directory ;;
          clean_directory html_parser prettify directory fmt (os_walk directory) ;;
          if b6 then print (py "Dry run mode: No files were modified.")
          else print (py "Code cleanup complete.")) (with_config cfg w).
Proof.
  eexists. split; [|split]; [| |reflexivity]; reflexivity.
Qed.

Lemma main_tail_keeps (R : world -> world -> Prop) (directory fmt message : str) (w : world) :
  (forall w, R w w) ->
  (forall a b c, R a b -> R b c -> R a c) ->
  (forall root file w, R w (world_of (clean_file html_parser prettify root file w))) ->
  (forall message w, R w (logged message w)) ->
  (forall f w, R w (with_config (set_clean_format f (DEFAULT_CONFIG w)) w)) ->
  (forall ds w, R w (with_dirs ds w)) ->
  (forall line w, R w (with_stdout (stdout w ++ [line]) w)) ->
  R w (world_of ((setup_backup_directory ;;
                  clean_directory html_parser prettify directory fmt (os_walk directory) ;;
                  print message) w)).
Proof.
  intros R_refl R_trans Hfile Hlog Hfmt Hdirs Hout.
  unfold setup_backup_directory, get_config, os_makedirs, bind.
  destruct (files w !! backup_directory (DEFAULT_CONFIG w)); [apply R_refl|].
  set (w1 := with_dirs _ w).
  apply (R_trans _ w1); [apply Hdirs|].
  pose proof (clean_directory_keeps R R_refl R_trans html_parser prettify directory fmt
                (os_walk directory) w1 Hfile Hlog (Hfmt fmt w1)) as H.
  destruct (clean_directory html_parser prettify directory fmt (os_walk directory) w1)
    as [[] w2|e w2]; cbn [world_of] in *; [|exact H].
  apply (R_trans _ w2); [exact H|]. apply Hout.
Qed.

Lemma main_run_keeps (R : world -> world -> Prop) (directory fmt : str)
    (b1 b2 b3 b4 b5 b6 : bool) (w : world) :
  (forall w, R w w) ->
  (forall a b c, R a b -> R b c -> R a c) ->
  (forall root file w, R w (world_of (clean_file html_parser prettify root file w))) ->
  (forall message w, R w (logged message w)) ->
  (forall f w, R w (with_config (set_clean_format f (DEFAULT_CONFIG w)) w)) ->
  (forall ds w, R w (with_dirs ds w)) ->
  (forall line w, R w (with_stdout (stdout w ++ [line]) w)) ->
  exists cfg,
    dry_run cfg = b6
    /\ backup_directory cfg = backup_directory (DEFAULT_CONFIG w)
    /\ R (with_config cfg w)
         (world_of (main_run html_parser prettify os_walk directory fmt
                      b1 b2 b3 b4 b5 b6 w)).
Proof.
  intros R_refl R_trans Hfile Hlog Hfmt Hdirs Hout.
  destruct (main_run_updates directory fmt b1 b2 b3 b4 b5 b6 w) as (cfg & H1 & H2 & ->).
  exists cfg. split; [exact H1|]. split; [exact H2|].
  destruct b6; now apply main_tail_keeps.
Qed.

End MainFacts.

Lemma keeps_at_refl (q : str) (w : world) : keeps_at q w w.
Proof. reflexivity. Qed.

Lemma keeps_at_trans (q : str) (a b c : world) :
  keeps_at q a b -> keeps_at q b c -> keeps_at q a c.
Proof. unfold keeps_at. congruence. Qed.

(** An answer that is missing ends the run with [EOFError]; up to there
    lines were printed and nothing else happened: the dictionary is only
    written, and the backup directory only made, once all answers are in. *)
Theorem missing_answer_changes_nothing
    (html_parser : str -> Soup.soup) (prettify : Soup.soup -> str)
    (lower : str -> str) (getcwd : str)
    (os_walk : str -> list (str * list str * list str))
    (answers : list str) (w w' : world) :
  main html_parser prettify lower getcwd os_walk answers w = EOFError w' ->
  only_printed w w'.
Proof.
  intros H.
  destruct (main_reached html_parser prettify lower getcwd os_walk answers w)
    as [w1 [Hr|Hr] Hp|d f b1 b2 b3 b4 b5 b6 w1 Hp Hr]; congruence.
Qed.

Lemma missing_answer_changes_nothing_witness :
  only_printed (one_script_world initial_config)
    (with_stdout [welcome; action_prompt] (one_script_world initial_config)).
Proof.
  apply (missing_answer_changes_nothing one_string_parser strings_of ascii_lower
           (py "/home") one_script_walk [] (one_script_world initial_config)).
  reflexivity.
Defined.

(** An action that is neither 1 nor 2 ends the run after one more line;
    nothing else has happened, whatever answers follow. *)
Theorem invalid_action_ends_the_run
    (html_parser : str -> Soup.soup) (prettify : Soup.soup -> str)
    (lower : str -> str) (getcwd : str)
    (os_walk : str -> list (str * list str * list str))
    (action : str) (rest : list str) (w : world) :
  strip action <> py "1" ->
  strip action <> py "2" ->
  exists w',
    main html_parser prettify lower getcwd os_walk (action :: rest) w
    = Ended (Returned tt w')
    /\ stdout w' = stdout w ++ [welcome; action_prompt; py "Invalid action!"]
    /\ files w' = files w /\ dirs w' = dirs w /\ DEFAULT_CONFIG w' = DEFAULT_CONFIG w.
Proof.
  intros H1 H2. unfold main, print, input. cbv zeta.
  rewrite (bool_decide_false _ H1), (bool_decide_false _ H2).
  eexists. split; [reflexivity|]. cbn [stdout with_stdout files dirs DEFAULT_CONFIG].
  repeat split. now rewrite <- !app_assoc.
Qed.

Lemma invalid_action_ends_the_run_witness :
  exists w',
    main one_string_parser strings_of ascii_lower (py "/home") one_script_walk
      (py "3" :: answers_for_site (py "no")) (one_script_world initial_config)
    = Ended (Returned tt w')
    /\ stdout w'
       = stdout (one_script_world initial_config)
         ++ [welcome; action_prompt; py "Invalid action!"]
    /\ files w' = files (one_script_world initial_config)
    /\ dirs w' = dirs (one_script_world initial_config)
    /\ DEFAULT_CONFIG w' = DEFAULT_CONFIG (one_script_world initial_config).
Proof.
  apply (invalid_action_ends_the_run one_string_parser strings_of ascii_lower
           (py "/home") one_script_walk (py "3") (answers_for_site (py "no"))
           (one_script_world initial_config)).
  - vm_compute. discriminate.
  - vm_compute. discriminate.
Defined.

(** Whatever is answered and however the run ends, a path that ends in
    none of the three extensions and is not the log holds what it held. *)
Theorem main_keeps_unrecognised_files
    (html_parser : str -> Soup.soup) (prettify : Soup.soup -> str)
    (lower : str -> str) (getcwd : str)
    (os_walk : str -> list (str * list str * list str))
    (answers : list str) (w : world) (q : str) :
  recognised q = false ->
  q <> LOG_FILE_PATH ->
  files (world_of_ended (main html_parser prettify lower getcwd os_walk answers w)) !! q
  = files w !! q.
Proof.
  intros Hq Hlog.
  destruct (main_reached html_parser prettify lower getcwd os_walk answers w)
    as [w1 [Hr|Hr] (Hf & _)|d f b1 b2 b3 b4 b5 b6 w1 (Hf & _) Hr]; rewrite Hr;
    cbn [world_of_ended world_of]; try now rewrite Hf.
  destruct (main_run_keeps html_parser prettify os_walk (keeps_at q) d f b1 b2 b3 b4 b5 b6 w1
              (keeps_at_refl q) (keeps_at_trans q))
    as (cfg & _ & _ & H).
  - intros root file w2. now apply clean_file_frame.
  - intros message w2. now apply files_logged.
  - reflexivity.
  - reflexivity.
  - reflexivity.
  - unfold keeps_at in H. rewrite H. cbn [files with_config]. now rewrite Hf.
Qed.

Lemma main_keeps_unrecognised_files_witness :
  files (world_of_ended
           (main one_string_parser strings_of ascii_lower (py "/home") one_script_walk
              (answers_for_site (py "no")) (one_script_world initial_config)))
    !! py "site/notes.txt"
  = files (one_script_world initial_config) !! py "site/notes.txt".
Proof.
  apply (main_keeps_unrecognised_files one_string_parser strings_of ascii_lower
           (py "/home") one_script_walk (answers_for_site (py "no"))
           (one_script_world initial_config) (py "site/notes.txt")).
  - reflexivity.
  - vm_compute. discriminate.
Defined.

(** A run that ends with the dry-run flag set in the dictionary, returned
    or raised: a path that is not the log and does not begin with the name
    of the backup directory holds what it held. *)
Theorem dry_run_of_main_keeps_every_file
    (html_parser : str -> Soup.soup) (prettify : Soup.soup -> str)
    (lower : str -> str) (getcwd : str)
    (os_walk : str -> list (str * list str * list str))
    (answers : list str) (w : world) (q : str) :
  let w' := world_of_ended (main html_parser prettify lower getcwd os_walk answers w) in
  dry_run (DEFAULT_CONFIG w') = true ->
  q <> LOG_FILE_PATH ->
  startswith q (backup_directory (DEFAULT_CONFIG w)) = false ->
  files w' !! q = files w !! q.
Proof.
  intros w' Hdry Hq Hbd. subst w'.
  destruct (main_reached html_parser prettify lower getcwd os_walk answers w)
    as [w1 [Hr|Hr] (Hf & _)|d f b1 b2 b3 b4 b5 b6 w1 (Hf & _ & Hc & _) Hr]; rewrite Hr in *;
    cbn [world_of_ended world_of] in *; try now rewrite Hf.
  destruct (main_run_keeps html_parser prettify os_walk
              (dry_keeps q (backup_directory (DEFAULT_CONFIG w))) d f b1 b2 b3 b4 b5 b6 w1
              (dry_keeps_refl _ _) (dry_keeps_trans _ _))
    as (cfg & H1 & H2 & H3 & H4 & H5).
  - intros root file w2. now apply clean_file_dry_keeps.
  - intros message w2. repeat split. intros _ _. now apply files_logged.
  - now repeat split.
  - now repeat split.
  - now repeat split.
  - cbn [DEFAULT_CONFIG with_config files] in *.
    rewrite H5, Hf; [reflexivity|congruence|congruence].
Qed.

Lemma dry_run_of_main_keeps_every_file_witness :
  files (world_of_ended
           (main one_string_parser strings_of ascii_lower (py "/home") one_script_walk
              (answers_for_site (py " Yes")) (one_script_world initial_config)))
    !! py "site/app.js"
  = files (one_script_world initial_config) !! py "site/app.js".
Proof.
  apply (dry_run_of_main_keeps_every_file one_string_parser strings_of ascii_lower
           (py "/home") one_script_walk (answers_for_site (py " Yes"))
           (one_script_world initial_config) (py "site/app.js")).
  - vm_compute. reflexivity.
  - vm_compute. discriminate.
  - reflexivity.
Defined.


(** A format that is neither 1 nor 2, here behind the action 1, ends the
    run after one more line; nothing else has happened. *)
Theorem invalid_format_ends_the_run
    (html_parser : str -> Soup.soup) (prettify : Soup.soup -> str)
    (lower : str -> str) (getcwd : str)
    (os_walk : str -> list (str * list str * list str))
    (action format_option : str) (rest : list str) (w : world) :
  strip action = py "1" ->
  strip format_option <> py "1" ->
  strip format_option <> py "2" ->
  exists w',
    main html_parser prettify lower getcwd os_walk (action :: format_option :: rest) w
    = Ended (Returned tt w')
    /\ stdout w'
       = stdout w ++ [welcome; action_prompt; format_prompt; py "Invalid format choice!"]
    /\ files w' = files w /\ dirs w' = dirs w /\ DEFAULT_CONFIG w' = DEFAULT_CONFIG w.
Proof.
  intros H0 H1 H2. unfold main, main_format, print, input. cbv zeta.
  rewrite (bool_decide_true _ H0), (bool_decide_false _ H1), (bool_decide_false _ H2).
  eexists. split; [reflexivity|]. cbn [stdout with_stdout files dirs DEFAULT_CONFIG].
  repeat split. now rewrite <- !app_assoc.
Qed.

Lemma invalid_format_ends_the_run_witness :
  exists w',
    main one_string_parser strings_of ascii_lower (py "/home") one_script_walk
      (py " 1" :: py "compact" :: answers_for_site (py "no")) (one_script_world initial_config)
    = Ended (Returned tt w')
    /\ stdout w'
       = stdout (one_script_world initial_config)
         ++ [welcome; action_prompt; format_prompt; py "Invalid format choice!"]
    /\ files w' = files (one_script_world initial_config)
    /\ dirs w' = dirs (one_script_world initial_config)
    /\ DEFAULT_CONFIG w' = DEFAULT_CONFIG (one_script_world initial_config).
Proof.
  apply (invalid_format_ends_the_run one_string_parser strings_of ascii_lower
           (py "/home") one_script_walk (py " 1") (py "compact") (answers_for_site (py "no"))
           (one_script_world initial_config)).
  - vm_compute. reflexivity.
  - vm_compute. discriminate.
  - vm_compute. discriminate.
Defined.





(** * Further properties: the text of scripts, stylesheets and markup *)

Lemma trimmed_line_head (l : str) :
  trimmed_line l -> exists d l', l = d :: l' /\ is_space d = false.
Proof.
  intros (Hne & _ & Hs). destruct l as [|d l']; [easy|]. exists d, l'. split; [easy|].
  pose proof (lstrip_head (strip (d :: l'))) as H.
  rewrite lstrip_strip, Hs in H. exact H.
Qed.

Lemma strip_lines_joined (text : str) :
  exists ls, Forall trimmed_line ls /\ strip_lines text = join [LF] ls.
Proof.
  exists (nonblank_stripped (splitlines text)). split; [|reflexivity].
  apply nonblank_stripped_trimmed, splitlines_no_break.
Qed.

(** Trimmed lines joined by single line feeds hold no line feed with only
    whitespace up to the next one. *)
Lemma blank_gap_join (ls : list str) :
  Forall trimmed_line ls ->
  Re.sub Re.blank_gap Re.to_newline (join [LF] ls) = join [LF] ls.
Proof.
  assert (Hm : forall c u, negb (c =? LF)%N = true -> Re.blank_gap (c :: u) = None).
  { intros c u Hc. unfold Re.blank_gap. apply negb_true_iff in Hc. now rewrite Hc. }
  induction 1 as [|l ls Hl Hls IH]; [reflexivity|].
  destruct Hl as (Hne & Hnb & Hs).
  cbn [join]. destruct ls as [|l2 ls'].
  - apply (sub_no_opener _ _ _ l Hm). now apply no_break_no_LF.
  - rewrite (sub_app_no_opener _ _ _ l _ Hm) by now apply no_break_no_LF.
    f_equal. cbn [app]. rewrite sub_cons.
    inversion Hls as [|? ? Hl2 _]; subst.
    destruct (trimmed_line_head l2 Hl2) as (d & l2' & -> & Hd).
    assert (Re.blank_gap (LF :: join [LF] ((d :: l2') :: ls')) = None) as ->.
    { unfold Re.blank_gap. rewrite N.eqb_refl.
      assert (span is_space (join [LF] ((d :: l2') :: ls')) = 0) as ->.
      { cbn [join]. destruct ls'; cbn [app span]; now rewrite Hd. }
      reflexivity. }
    now rewrite IH.
Qed.

Lemma compact_not_readable (cfg : config) :
  is_compact cfg = true -> is_readable cfg = false.
Proof.
  intros H. destruct (is_readable cfg) eqn:E; [|reflexivity].
  apply readable_not_compact in E. congruence.
Qed.

Lemma collapse_no_LF (s : str) :
  replace [LF] [] (Re.sub Re.whitespace_run Re.to_space s)
  = Re.sub Re.whitespace_run Re.to_space s.
Proof.
  apply replace_no_opener, single_spaced_no_linefeed, collapse_single_spaced.
Qed.

(** What the format pass of a script does to the text that reaches it. *)
Lemma js_format_stripped (cfg : config) (text : str) :
  js_format cfg (js_minified cfg (strip_lines text))
  = if is_readable cfg then brace_newline (js_minified cfg (strip_lines text))
    else js_minified cfg (strip_lines text).
Proof.
  unfold js_format. destruct (is_compact cfg) eqn:Ec.
  - rewrite (compact_not_readable cfg Ec). unfold js_minified.
    destruct (js_minify cfg).
    + cbv zeta. rewrite collapse_no_LF. apply blank_gap_no_opener.
      apply single_spaced_no_linefeed, collapse_single_spaced.
    + destruct (strip_lines_joined text) as (ls & Hls & ->). now apply blank_gap_join.
  - now destruct (is_readable cfg).
Qed.

(** For a script and for a stylesheet the compact format is no format:
    when the format pass is reached the lines are trimmed and none is
    blank, or the text is minified, and the pass for [compact] finds
    nothing to remove. Every format but [readable] gives the same text. *)
Theorem compact_pass_finds_nothing (cfg : config) (text : str) :
  is_readable cfg = false ->
  js_body cfg text = js_minified cfg (strip_lines (js_remove_comments cfg text))
  /\ css_body cfg text = strip_lines (css_remove_comments cfg text).
Proof.
  intros H. split.
  - unfold js_body. now rewrite js_format_stripped, H.
  - unfold css_body.
    assert (css_optimize cfg (css_remove_comments cfg text) = css_remove_comments cfg text)
      as -> by (unfold css_optimize; now destruct (optimize_css cfg)).
    destruct (strip_lines_joined (css_remove_comments cfg text)) as (ls & Hls & ->).
    now rewrite css_format_joined, H.
Qed.

Lemma compact_pass_finds_nothing_witness :
  js_body initial_config commented_css
  = js_minified initial_config (strip_lines (js_remove_comments initial_config commented_css))
  /\ css_body initial_config commented_css
     = strip_lines (css_remove_comments initial_config commented_css).
Proof.
  apply (compact_pass_finds_nothing initial_config commented_css). reflexivity.
Defined.

Lemma ink_js_minified (cfg : config) (text : str) :
  ink (js_minified cfg text) = ink text.
Proof.
  unfold js_minified. destruct (js_minify cfg); [|reflexivity].
  cbv zeta. rewrite collapse_no_LF. apply collapse_ink.
Qed.

(** Without the removal of comments the script and stylesheet cleaners
    change whitespace only: the characters of the output that are not
    whitespace are those of the watermark, then those of the input, in
    order. *)
Theorem only_whitespace_changes_with_comments_kept (cfg : config) (text : str) :
  remove_comments cfg = false ->
  ink (clean_js_text cfg text) = ink WATERMARK ++ ink text
  /\ ink (clean_css_text cfg text) = ink WATERMARK ++ ink text.
Proof.
  intros H. split.
  - unfold clean_js_text, add_watermark, js_body, js_remove_comments.
    rewrite H, ink_app, js_format_stripped. f_equal.
    destruct (is_readable cfg); rewrite ?ink_brace_newline, ink_js_minified;
      apply ink_strip_lines.
  - unfold clean_css_text, add_watermark, css_body. rewrite css_rerun_input by exact H.
    rewrite ink_app. f_equal.
    destruct (strip_lines_joined text) as (ls & Hls & E). rewrite E.
    rewrite css_format_joined by exact Hls. rewrite <- E.
    destruct (is_readable cfg); rewrite ?ink_brace_newline; apply ink_strip_lines.
Qed.

Lemma only_whitespace_changes_with_comments_kept_witness :
  ink (clean_js_text compact_rerun_config three_line_js)
  = ink WATERMARK ++ ink three_line_js
  /\ ink (clean_css_text compact_rerun_config three_line_js)
     = ink WATERMARK ++ ink three_line_js.
Proof.
  apply (only_whitespace_changes_with_comments_kept compact_rerun_config three_line_js).
  reflexivity.
Defined.

Lemma single_spaced_lf_only (s : str) : single_spaced s = true -> lf_only s = true.
Proof.
  unfold lf_only. induction s as [|c s IH]; [reflexivity|].
  cbn [single_spaced forallb]. intros H. apply andb_true_iff in H as [Hc H].
  rewrite (IH H), andb_true_r.
  destruct (is_linebreak c) eqn:Eb; [|reflexivity].
  rewrite (linebreak_is_space c Eb) in Hc. apply andb_true_iff in Hc as [Hc _].
  apply N.eqb_eq in Hc. subst c. discriminate Eb.
Qed.

Lemma lf_only_app (a b : str) : lf_only (a ++ b) = lf_only a && lf_only b.
Proof. apply forallb_app. Qed.

Lemma lf_only_strip_lines (text : str) : lf_only (strip_lines text) = true.
Proof. destruct (strip_lines_joined text) as (ls & Hls & ->). now apply lf_only_join. Qed.

(** Whatever boundaries the lines of the input had (carriage returns, form
    feeds, the Unicode separators), in a cleaned script or stylesheet every
    line boundary is a line feed. *)
Theorem cleaned_text_breaks_lines_by_line_feed (cfg : config) (text : str) :
  lf_only (clean_js_text cfg text) = true
  /\ lf_only (clean_css_text cfg text) = true.
Proof.
  split.
  - unfold clean_js_text, add_watermark, js_body. rewrite lf_only_app, js_format_stripped.
    change (lf_only WATERMARK) with true. cbn [andb].
    assert (lf_only (js_minified cfg (strip_lines (js_remove_comments cfg text))) = true) as H.
    { unfold js_minified. destruct (js_minify cfg); [|apply lf_only_strip_lines].
      cbv zeta. rewrite collapse_no_LF. apply single_spaced_lf_only, collapse_single_spaced. }
    destruct (is_readable cfg); [now apply lf_only_brace_newline|exact H].
  - unfold clean_css_text, add_watermark. rewrite lf_only_app.
    change (lf_only WATERMARK) with true. cbn [andb].
    destruct (css_body_shape cfg text) as (ls & Hls & ->).
    destruct (is_readable cfg); [apply lf_only_brace_newline|]; now apply lf_only_join.
Qed.

(** ** A second run *)

Lemma watermark_parts : WATERMARK = LF :: watermark_comment ++ [LF].
Proof. vm_compute. reflexivity. Qed.

Lemma startswith_length (s p : str) : startswith s p = true -> length p <= length s.
Proof.
  revert s. induction p as [|x p IH]; intros [|c s]; cbn [startswith length]; try easy; try lia.
  intros H. apply andb_true_iff in H as [_ H]. apply IH in H. lia.
Qed.

Lemma startswith_longer (s t p : str) :
  length p <= length s -> startswith (s ++ t) p = startswith s p.
Proof.
  revert s. induction p as [|x p IH]; intros [|c s]; cbn [startswith length app]; try easy; try lia.
  intros H. rewrite IH by lia. reflexivity.
Qed.

Lemma find_some_length (needle s : str) (k : nat) :
  find needle s = Some k -> k + length needle <= length s.
Proof.
  revert k. induction s as [|c s IH]; intros k; cbn [find].
  - destruct (startswith [] needle) eqn:E; [|discriminate].
    intros [= <-]. apply startswith_length in E. cbn in *. lia.
  - destruct (startswith (c :: s) needle) eqn:E.
    + intros [= <-]. apply startswith_length in E. lia.
    + destruct (find needle s) as [k'|]; [|discriminate]. cbn [option_map].
      intros [= <-]. specialize (IH k' eq_refl). cbn [length]. lia.
Qed.

Lemma find_app (needle x y : str) (k : nat) :
  find needle x = Some k -> find needle (x ++ y) = Some k.
Proof.
  revert k. induction x as [|c x IH]; intros k; cbn [find app].
  - destruct (startswith [] needle) eqn:E; [|discriminate]. intros [= <-].
    destruct needle; [|discriminate]. now destruct y.
  - destruct (startswith (c :: x) needle) eqn:E.
    + intros [= <-]. change (c :: x ++ y) with ((c :: x) ++ y).
      now rewrite startswith_app.
    + destruct (find needle x) as [k'|] eqn:F; [|discriminate]. cbn [option_map].
      intros [= <-]. pose proof (find_some_length _ _ _ F) as Hlen.
      change (c :: x ++ y) with ((c :: x) ++ y).
      rewrite startswith_longer by (cbn [length]; lia).
      rewrite E, (IH k' eq_refl). reflexivity.
Qed.

Lemma block_comment_opener (c : N) (u : str) :
  negb (c =? SLASH)%N = true -> Re.block_comment (c :: u) = None.
Proof.
  intros H. apply negb_true_iff in H. unfold Re.block_comment.
  change (py "/*") with [SLASH; 42%N]. cbn [startswith]. now rewrite H.
Qed.

Lemma line_comment_opener (c : N) (u : str) :
  negb (c =? SLASH)%N = true -> Re.line_comment (c :: u) = None.
Proof.
  intros H. apply negb_true_iff in H. unfold Re.line_comment.
  change (py "//") with [SLASH; SLASH]. cbn [startswith]. now rewrite H.
Qed.

(** A comment whose first closer is its end is matched whole, whatever
    follows it. *)
Lemma block_comment_app (K t : str) :
  startswith K (py "/*") = true ->
  find (py "*/") (skipn 2 K) = Some (length K - 4) ->
  4 <= length K ->
  Re.block_comment (K ++ t) = Some (length K).
Proof.
  intros Hs Hf Hlen. unfold Re.block_comment.
  rewrite startswith_app by exact Hs.
  rewrite skipn_app. replace (2 - length K) with 0 by lia. cbn [skipn].
  rewrite (find_app _ _ _ _ Hf). cbn [option_map]. f_equal. lia.
Qed.

Lemma sub_block_comment_line (K t : str) :
  startswith K (py "/*") = true ->
  find (py "*/") (skipn 2 K) = Some (length K - 4) ->
  4 <= length K ->
  Re.sub Re.block_comment Re.to_empty (LF :: K ++ LF :: t)
  = LF :: LF :: Re.sub Re.block_comment Re.to_empty t.
Proof.
  intros Hs Hf Hlen.
  rewrite sub_cons, block_comment_opener by reflexivity. f_equal.
  destruct K as [|c K']; [cbn in Hlen; lia|].
  change ((c :: K') ++ LF :: t) with (c :: (K' ++ LF :: t)).
  rewrite sub_cons.
  change (c :: (K' ++ LF :: t)) with ((c :: K') ++ LF :: t).
  rewrite (block_comment_app _ _ Hs Hf Hlen). cbn [length].
  unfold Re.to_empty. cbn [app].
  rewrite skipn_app, skipn_all, Nat.sub_diag. cbn [skipn app].
  now rewrite sub_cons, block_comment_opener by reflexivity.
Qed.

Lemma span_stop (f : N -> bool) (x y : str) (c : N) :
  f c = false -> span f (x ++ c :: y) = span f x.
Proof.
  intros H. induction x as [|d x IH]; cbn [app span]; [now rewrite H|].
  destruct (f d); [now rewrite IH|reflexivity].
Qed.

Lemma span_le (f : N -> bool) (x : str) : span f x <= length x.
Proof.
  induction x as [|d x IH]; cbn [span length]; [lia|]. destruct (f d); lia.
Qed.

(** A line comment ends before the line feed of its line: the removal
    works line by line. *)
Lemma sub_line_comment_line (X b : str) :
  Re.sub Re.line_comment Re.to_empty (X ++ LF :: b)
  = Re.sub Re.line_comment Re.to_empty X ++ LF :: Re.sub Re.line_comment Re.to_empty b.
Proof.
  induction X as [X IH] using length_ind.
  destruct X as [|c X'].
  { cbn [app]. rewrite sub_cons, line_comment_opener by reflexivity.
    now rewrite sub_nil. }
  destruct X' as [|d X''].
  { cbn [app]. rewrite (sub_cons _ _ c (LF :: b)), (sub_cons _ _ c []).
    assert (Re.line_comment (c :: LF :: b) = None) as ->.
    { unfold Re.line_comment. change (py "//") with [SLASH; SLASH]. cbn [startswith].
      change (LF =? SLASH)%N with false. now rewrite andb_false_r. }
    assert (Re.line_comment [c] = None) as ->.
    { unfold Re.line_comment. change (py "//") with [SLASH; SLASH]. cbn [startswith].
      now rewrite andb_false_r. }
    rewrite sub_cons, line_comment_opener by reflexivity. now rewrite sub_nil. }
  cbn [app]. rewrite (sub_cons _ _ c (d :: X'' ++ LF :: b)), (sub_cons _ _ c (d :: X'')).
  unfold Re.line_comment.
  change (py "//") with [SLASH; SLASH]. cbn [startswith skipn].
  rewrite !andb_true_r.
  destruct ((c =? SLASH)%N && (d =? SLASH)%N) eqn:E.
  - rewrite (span_stop _ X'' b LF) by reflexivity.
    set (n := span (fun c0 : N => negb (c0 =? LF)%N) X'').
    cbn [Nat.add]. unfold Re.to_empty. cbn [app skipn].
    pose proof (span_le (fun c0 : N => negb (c0 =? LF)%N) X'') as Hn. fold n in Hn.
    rewrite skipn_app. replace (n - length X'') with 0 by lia. cbn [skipn].
    apply IH. rewrite length_skipn. cbn [length]. lia.
  - change (d :: X'' ++ LF :: b) with ((d :: X'') ++ LF :: b).
    rewrite IH by (cbn [length]; lia). reflexivity.
Qed.

Lemma strip_lines_behind_blank (x : str) : strip_lines (LF :: x) = strip_lines x.
Proof. unfold strip_lines. now rewrite splitlines_LF. Qed.

Lemma css_remove_comments_watermark (cfg : config) (text : str) :
  remove_comments cfg = true ->
  css_remove_comments cfg (WATERMARK ++ text) = LF :: LF :: css_remove_comments cfg text.
Proof.
  intros H. unfold css_remove_comments. rewrite H, watermark_parts.
  change ((LF :: watermark_comment ++ [LF]) ++ text)
    with (LF :: (watermark_comment ++ [LF]) ++ text).
  rewrite <- app_assoc. cbn [app].
  apply sub_block_comment_line; vm_compute; [reflexivity|reflexivity|lia].
Qed.

Lemma js_remove_comments_watermark (cfg : config) (text : str) :
  remove_comments cfg = true ->
  js_remove_comments cfg (WATERMARK ++ text) = LF :: LF :: js_remove_comments cfg text.
Proof.
  intros H. unfold js_remove_comments. rewrite H. cbv zeta. rewrite watermark_parts.
  change ((LF :: watermark_comment ++ [LF]) ++ text)
    with ((LF :: watermark_comment) ++ [LF] ++ text).
  cbn [app]. change (LF :: watermark_comment ++ LF :: text)
    with ((LF :: watermark_comment) ++ LF :: text).
  rewrite sub_line_comment_line.
  rewrite sub_cons, line_comment_opener by reflexivity. cbn [app].
  apply sub_block_comment_line; vm_compute; [reflexivity|reflexivity|lia].
Qed.

(** With the removal of comments on, a watermark at the head of the input
    is removed as the comment it is, with the blank lines around it: a
    script or stylesheet that was cleaned before comes out as the text
    behind its watermark would, under one watermark. *)
Theorem old_watermark_is_removed_as_a_comment (cfg : config) (text : str) :
  remove_comments cfg = true ->
  clean_js_text cfg (add_watermark text) = clean_js_text cfg text
  /\ clean_css_text cfg (add_watermark text) = clean_css_text cfg text.
Proof.
  intros H. unfold clean_js_text, clean_css_text, js_body, css_body, css_optimize, add_watermark.
  rewrite js_remove_comments_watermark, css_remove_comments_watermark by exact H.
  split; [now rewrite !strip_lines_behind_blank|].
  destruct (optimize_css cfg); now rewrite !strip_lines_behind_blank.
Qed.

Lemma old_watermark_is_removed_as_a_comment_witness :
  clean_js_text initial_config (add_watermark three_line_js)
  = clean_js_text initial_config three_line_js
  /\ clean_css_text initial_config (add_watermark three_line_js)
     = clean_css_text initial_config three_line_js.
Proof.
  apply (old_watermark_is_removed_as_a_comment initial_config three_line_js). reflexivity.
Defined.

(** ** Tabs in markup *)

Lemma forallb_firstn (P : N -> bool) (n : nat) (s : str) :
  forallb P s = true -> forallb P (firstn n s) = true.
Proof.
  revert n. induction s as [|c s IH]; intros [|n]; cbn [firstn forallb]; try easy.
  intros H. apply andb_true_iff in H as [-> H]. now rewrite IH.
Qed.

(** A substitution whose replacements keep a property of the characters
    keeps it. *)
Lemma forallb_scan_sub (P : N -> bool) (m : str -> option nat) (repl : str -> str) :
  (forall g, forallb P g = true -> forallb P (repl g) = true) ->
  forall s k, forallb P s = true -> forallb P (scan_sub m repl k s) = true.
Proof.
  intros Hrepl. induction s as [|c s IH]; intros k H; [reflexivity|].
  pose proof H as Hall. cbn [forallb] in H. apply andb_true_iff in H as [Hc Hs].
  cbn [scan_sub]. destruct k as [|k]; [|now apply IH].
  destruct (m (c :: s)) as [[|j]|].
  - cbn [forallb]. now rewrite Hc, IH.
  - rewrite forallb_app, IH by exact Hs. rewrite Hrepl; [reflexivity|].
    now apply forallb_firstn.
  - cbn [forallb]. now rewrite Hc, IH.
Qed.

Lemma replace_char (c : N) (new s : str) :
  replace [c] new s = flat_map (fun d => if (d =? c)%N then new else [d]) s.
Proof.
  unfold replace. change (scan_sub ?m ?r 0 ?s) with (Re.sub m r s).
  set (m := fun t : str => if startswith t [c] then Some (length [c]) else None).
  set (r := fun _ : str => new).
  induction s as [|d s IH]; [reflexivity|].
  rewrite sub_cons. unfold m at 1. cbn [startswith length flat_map]. rewrite andb_true_r.
  destruct (d =? c)%N.
  - change (drop 0 s) with s. rewrite IH. reflexivity.
  - cbn [app]. now rewrite IH.
Qed.

Lemma no_tab_replace (s : str) : no_tab (replace [TAB] (py "    ") s) = true.
Proof.
  rewrite replace_char. unfold no_tab. induction s as [|d s IH]; [reflexivity|].
  cbn [flat_map]. rewrite forallb_app, IH, andb_true_r.
  destruct (d =? TAB)%N eqn:E; [reflexivity|]. cbn [forallb]. now rewrite E.
Qed.

Lemma no_tab_html_format (cfg : config) (s : str) :
  no_tab s = true -> no_tab (html_format cfg s) = true.
Proof.
  intros H. unfold html_format.
  destruct (is_compact cfg).
  - unfold replace. now apply forallb_scan_sub.
  - destruct (is_readable cfg); [|exact H].
    unfold brace_newline, Re.sub. apply forallb_scan_sub; [|exact H].
    intros g Hg. unfold Re.group1_newline. now rewrite forallb_app, Hg.
Qed.

(** With [normalize_indentation] on, cleaned markup holds no tab, whatever
    the parser and the serializer gave and whatever the other options
    are. *)
Theorem normalized_markup_has_no_tab
    (html_parser : str -> Soup.soup) (prettify : Soup.soup -> str)
    (cfg : config) (text : str) :
  normalize_indentation cfg = true ->
  no_tab (clean_html_text html_parser prettify cfg text) = true.
Proof.
  intros H. unfold clean_html_text, add_watermark, html_body, no_tab.
  rewrite forallb_app. apply andb_true_iff. split; [reflexivity|].
  apply no_tab_html_format. unfold html_indentation. rewrite H.
  apply no_tab_replace.
Qed.

Lemma normalized_markup_has_no_tab_witness :
  no_tab (clean_html_text one_string_parser strings_of initial_config
            ([TAB] ++ py "<p>" ++ [TAB; LF; TAB] ++ py "x</p>")) = true.
Proof.
  apply (normalized_markup_has_no_tab one_string_parser strings_of initial_config).
  reflexivity.
Defined.

(** ** The line comprehension *)

(** The comprehension of lines 67, 104 and 146 settles in one pass: on its
    own result it changes nothing; and it changes whitespace only. *)
Theorem line_trimming_is_idempotent (text : str) :
  strip_lines (strip_lines text) = strip_lines text
  /\ ink (strip_lines text) = ink text.
Proof. split; [apply strip_lines_idem|apply ink_strip_lines]. Qed.

(** ** The formats *)

Lemma tab_replace_join (ls : list str) :
  replace [TAB] (py "    ") (join [LF] ls)
  = join [LF] (map (replace [TAB] (py "    ")) ls).
Proof.
  induction ls as [|l ls IH]; [reflexivity|].
  cbn [join map]. destruct ls as [|l2 ls']; [reflexivity|].
  cbn [map] in *. rewrite <- IH. rewrite !replace_char.
  now rewrite !flat_map_app.
Qed.

Lemma tab_replace_line (l : str) :
  l <> [] /\ no_break l = true ->
  replace [TAB] (py "    ") l <> [] /\ no_break (replace [TAB] (py "    ") l) = true.
Proof.
  intros [Hne Hnb]. rewrite replace_char. split.
  - destruct l as [|c l]; [easy|]. cbn [flat_map]. now destruct (c =? TAB)%N.
  - clear Hne. unfold no_break in *. induction l as [|c l IH]; [reflexivity|].
    cbn [forallb flat_map] in *. apply andb_true_iff in Hnb as [Hc Hl].
    rewrite forallb_app, (IH Hl), andb_true_r.
    destruct (c =? TAB)%N; [reflexivity|]. cbn [forallb]. now rewrite Hc.
Qed.

(** For markup whose blank lines are removed the compact format is no
    format either: the lines are trimmed, none is blank, the tabs turned
    into spaces leave them so, and no two line feeds stand in a row. *)
Theorem compact_markup_pass_finds_nothing
    (html_parser : str -> Soup.soup) (prettify : Soup.soup -> str)
    (cfg : config) (text : str) :
  remove_empty_lines cfg = true ->
  is_readable cfg = false ->
  html_body html_parser prettify cfg text
  = html_indentation cfg
      (strip_lines (prettify (html_remove_comments cfg (html_parser text)))).
Proof.
  intros He Hr. unfold html_body, html_empty_lines, html_format. rewrite He, Hr.
  destruct (is_compact cfg); [|reflexivity].
  destruct (strip_lines_joined (prettify (html_remove_comments cfg (html_parser text))))
    as (ls & Hls & ->).
  apply trimmed_lines_joinable in Hls.
  unfold html_indentation. destruct (normalize_indentation cfg).
  - rewrite tab_replace_join. apply replace_double_LF_join.
    apply Forall_map. eapply List.Forall_impl; [|exact Hls].
    intros l Hl. now apply tab_replace_line.
  - now apply replace_double_LF_join.
Qed.

Lemma compact_markup_pass_finds_nothing_witness :
  html_body one_string_parser strings_of initial_config
    (py "<p>" ++ [TAB; LF; LF; TAB] ++ py "x</p>")
  = html_indentation initial_config
      (strip_lines (strings_of (html_remove_comments initial_config
                                  (one_string_parser
                                     (py "<p>" ++ [TAB; LF; LF; TAB] ++ py "x</p>"))))).
Proof.
  apply (compact_markup_pass_finds_nothing one_string_parser strings_of initial_config).
  - reflexivity.
  - reflexivity.
Defined.

(** The readable text of a script or stylesheet is the text of any other
    format with one line feed behind every closing brace, and nothing
    else: what differs between the formats is this pass alone. *)
Theorem readable_breaks_the_line_behind_each_brace (cfg : config) (fmt text : str) :
  fmt <> py "readable" ->
  js_body (set_clean_format (py "readable") cfg) text
  = brace_newline (js_body (set_clean_format fmt cfg) text)
  /\ css_body (set_clean_format (py "readable") cfg) text
     = brace_newline (css_body (set_clean_format fmt cfg) text).
Proof.
  intros Hfmt.
  assert (is_readable (set_clean_format fmt cfg) = false) as Hr
    by (unfold is_readable; cbn [clean_format set_clean_format]; now apply bool_decide_false).
  assert (is_readable (set_clean_format (py "readable") cfg) = true) as Hr' by reflexivity.
  split.
  - unfold js_body. rewrite !js_format_stripped, Hr, Hr'. reflexivity.
  - unfold css_body, css_optimize.
    cbn [optimize_css set_clean_format].
    assert (forall f, css_remove_comments (set_clean_format f cfg) text
                      = css_remove_comments cfg text) as E by reflexivity.
    rewrite !E.
    assert (forall x : str, (if optimize_css cfg then x else x) = x) as Eo
      by (intros x; now destruct (optimize_css cfg)).
    rewrite Eo.
    destruct (strip_lines_joined (css_remove_comments cfg text)) as (ls & Hls & ->).
    rewrite !css_format_joined by exact Hls. now rewrite Hr, Hr'.
Qed.

Lemma readable_breaks_the_line_behind_each_brace_witness :
  js_body (set_clean_format (py "readable") initial_config) three_line_js
  = brace_newline (js_body (set_clean_format (py "compact") initial_config) three_line_js)
  /\ css_body (set_clean_format (py "readable") initial_config) three_line_js
     = brace_newline (css_body (set_clean_format (py "compact") initial_config) three_line_js).
Proof.
  apply (readable_breaks_the_line_behind_each_brace initial_config (py "compact")
           three_line_js).
  vm_compute. discriminate.
Defined.
